(** * Expense form and member-edit modal of opencollective-frontend

    A shallow embedding of the logic of [ExpenseForm] (payload
    normalisation, validation, step gating, draft loading, submit
    handler) and of the confirm handlers of [EditMemberModal], with the
    properties the specification states about them.

    JavaScript objects are finite maps from property names to values
    ([gmap string value]); a property that is absent and a property that
    holds [undefined] are different maps, as they are different objects
    for lodash's [pick].  Code that can raise is written in the
    [completion] monad. *)

From Stdlib Require Import ZArith.
From stdpp Require Import gmap strings list fin_maps pretty.

#[local] Set Warnings "-register-all,-clear-no-such-hyp".

(** ** JavaScript values *)

(** Numbers: the form holds integer amounts and identifiers; [NaN] is kept
    because it is falsy. *)
Inductive number :=
| NaN
| Int (z : Z).

(** Plain data, as form state, props and drafts carry it: no functions, no
    symbols, every object with the prototype [Object.prototype].  A string is
    its sequence of code units. *)
Inductive value :=
| VUndefined
| VNull
| VBool (b : bool)
| VNumber (n : number)
| VString (s : string)
| VArray (l : list value)
| VObject (m : gmap string value).

(** What a [throw] carries: the two built-in errors this code can raise, or an
    arbitrary rejection reason of a remote call. *)
Inductive exn :=
| TypeError
| ReferenceError
| Rejected (reason : value).

(** Result of evaluating an expression or of awaiting a promise. *)
Inductive completion (A : Type) :=
| Normal (a : A)
| Throw (e : exn).
Arguments Normal {A} a.
Arguments Throw {A} e.

#[global] Instance completion_ret : MRet completion := λ A a, Normal a.
#[global] Instance completion_bind : MBind completion := λ A B f c,
  match c with
  | Normal a => f a
  | Throw e => Throw e
  end.

(** State and exceptions together: a computation takes the state before to
    its completion and the state after; a [throw] keeps the state reached. *)
Definition run (S A : Type) : Type := S → completion A * S.

#[global] Instance run_ret {S} : MRet (run S) := λ A a s, (Normal a, s).
#[global] Instance run_bind {S} : MBind (run S) := λ A B f c s,
  match c s with
  | (Normal a, s') => f a s'
  | (Throw e, s') => (Throw e, s')
  end.

Definition throw {S A} (e : exn) : run S A := λ s, (Throw e, s).
Definition lift {S A} (c : completion A) : run S A := λ s, (c, s).
Definition try_catch {S A} (body : run S A) (handler : exn → run S A) : run S A :=
  λ s, match body s with
       | (Throw e, s') => handler e s'
       | (Normal a, s') => (Normal a, s')
       end.

Module JS.

(** ToBoolean. *)
Definition truthy (v : value) : bool :=
  match v with
  | VUndefined | VNull => false
  | VBool b => b
  | VNumber NaN => false
  | VNumber (Int z) => negb (z =? 0)%Z
  | VString s => negb (String.eqb s "")
  | VArray _ | VObject _ => true
  end.

(** [v == null], the test behind [?.]. *)
Definition nullish (v : value) : bool :=
  match v with
  | VUndefined | VNull => true
  | _ => false
  end.

(** [typeof v === 'string'] *)
Definition typeof_string (v : value) : bool :=
  match v with
  | VString _ => true
  | _ => false
  end.

(** [v === lit] for a string literal [lit]: strict equality with a string
    holds for the same string only. *)
Definition strict_eq_string (v : value) (lit : string) : bool :=
  match v with
  | VString s => String.eqb s lit
  | _ => false
  end.

(** The property read [v.k] for an identifier [k] (never an array index,
    never a name defined on a built-in prototype other than [length]):
    [TypeError] on [undefined] and [null], the member of an object, the
    [length] of an array or string, [undefined] otherwise. *)
Definition get (v : value) (k : string) : completion value :=
  match v with
  | VUndefined | VNull => Throw TypeError
  | VObject m => Normal (default VUndefined (m !! k))
  | VArray l =>
      Normal (if String.eqb k "length" then VNumber (Int (Z.of_nat (length l)))
              else VUndefined)
  | VString s =>
      Normal (if String.eqb k "length" then VNumber (Int (Z.of_nat (String.length s)))
              else VUndefined)
  | VBool _ | VNumber _ => Normal VUndefined
  end.

(** [v?.k] *)
Definition get_opt (v : value) (k : string) : completion value :=
  if nullish v then Normal VUndefined else get v k.

(** [v.map(f)]: only arrays have a callable [map]; every other receiver
    raises [TypeError] (reading [map] of a nullish value, or calling
    something that is not a function).  Elements are visited in order and
    the first exception aborts the call. *)
Definition array_map (f : value → completion value) (v : value)
  : completion (list value) :=
  match v with
  | VArray l => mapM f l
  | _ => Throw TypeError
  end.

Section Runtime.

(** ToNumber on strings, arrays and objects (string parsing after
    ToPrimitive) is the runtime's own; it is a parameter, and nothing
    proved below depends on what it returns. *)
Variable ToNumber_coerce : value → completion number.

(** ToNumber. *)
Definition to_number (v : value) : completion number :=
  match v with
  | VUndefined => Normal NaN
  | VNull => Normal (Int 0)
  | VBool b => Normal (Int (if b then 1 else 0))
  | VNumber n => Normal n
  | VString _ | VArray _ | VObject _ => ToNumber_coerce v
  end.

(** [v > k] for a number literal [k]: the comparison of ToNumber(v) with
    [k], false when that is [NaN]. *)
Definition gt (v : value) (k : Z) : completion bool :=
  n ← to_number v;
  Normal (match n with
          | NaN => false
          | Int z => (k <? z)%Z
          end).

End Runtime.

(** The own enumerable properties of a value, as object spread and
    [Object.keys] see them: the members of an object, the elements of an
    array and the code units of a string under their indices, none for the
    other primitives. *)
Definition own_properties (v : value) : gmap string value :=
  match v with
  | VObject m => m
  | VArray l => list_to_map (imap (λ i x, (pretty i, x)) l)
  | VString s =>
      list_to_map (imap (λ i c, (pretty i, VString (String c ""))) (String.list_ascii_of_string s))
  | VUndefined | VNull | VBool _ | VNumber _ => ∅
  end.

(** [{...onto, ...v}]: the properties of [v] over those already there. *)
Definition spread (onto : gmap string value) (v : value) : gmap string value :=
  own_properties v ∪ onto.

End JS.

(** ** lodash *)

Module Lodash.

(** [_.pick(object, paths)] for paths that are plain property names: the
    result has exactly the listed properties that [object] has.  A
    [null]/[undefined] argument, a primitive or an array has none of the
    names this program picks. *)
Definition pick (object : value) (paths : list string) : gmap string value :=
  match object with
  | VObject m =>
      foldr (λ path result,
               match m !! path with
               | Some v => <[path := v]> result
               | None => result
               end) ∅ paths
  | _ => ∅
  end.

(** [_.get(object, path)] for a plain property name: the null-safe read. *)
Definition get (object : value) (path : string) : value :=
  match JS.get object path with
  | Normal v => v
  | Throw _ => VUndefined
  end.

(** [_.isEmpty(value)]: [null] and [undefined] are empty, strings and arrays
    when their length is zero, objects when they have no own property,
    every other primitive always. *)
Definition isEmpty (v : value) : bool :=
  match v with
  | VUndefined | VNull | VBool _ | VNumber _ => true
  | VString s => String.eqb s ""
  | VArray l => match l with [] => true | _ => false end
  | VObject m => bool_decide (m = ∅)
  end.

(** [_.first(array)], that is [(array && array.length) ? array[0] : undefined]. *)
Definition first (array : value) : value :=
  match array with
  | VArray l => default VUndefined (head l)
  | VString s =>
      match s with
      | String c _ => VString (String c "")
      | EmptyString => VUndefined
      end
  | VObject m =>
      if JS.truthy (default VUndefined (m !! "length"))
      then default VUndefined (m !! "0")
      else VUndefined
  | VUndefined | VNull | VBool _ | VNumber _ => VUndefined
  end.

End Lodash.

(** ** Constants of [lib/constants] *)

Module expenseTypes.
(** Modelled from the spec: [lib/constants/expenseTypes] is not part of
    the sources; the expense type is the enumeration RECEIPT | INVOICE, each
    constant being its own name as a string. *)
Definition INVOICE : string := "INVOICE".
Definition RECEIPT : string := "RECEIPT".
End expenseTypes.

Module PayoutMethodType.
(** Modelled from the spec: [lib/constants/payout-method] is not part of
    the sources; the bank-transfer payout method type is the constant the
    form names, its own name as a string. *)
Definition BANK_ACCOUNT : string := "BANK_ACCOUNT".
End PayoutMethodType.

(** ** [lib/errors] and [lib/form-utils] *)

Module FormUtils.

(** Modelled from the spec: [lib/errors] is not part of the sources; the
    required-field error is an error object of type
    [ERROR.FORM_FIELD_REQUIRED], the type the form tests for with
    [isErrorType]. *)
Definition requiredFieldError : value :=
  VObject {[ "type" := VString "FORM_FIELD_REQUIRED" ]}.

(** Modelled from the spec: a value is missing when it is [undefined] (also
    the value of an absent property) or [null], and empty when it is the
    empty string. *)
Definition missing_or_empty (v : value) : bool :=
  match v with
  | VUndefined | VNull => true
  | VString s => String.eqb s ""
  | _ => false
  end.

(** Modelled from the spec: [requireFields] of [lib/form-utils] is not part
    of the sources.  "Required-field check over the listed fields;
    missing/empty values produce a required-field error keyed by field
    name": a fresh error mapping with one entry per listed field whose
    value is missing or empty. *)
Definition requireFields (obj : value) (fields : list string) : gmap string value :=
  foldl (λ errors field,
           if missing_or_empty (Lodash.get obj field)
           then <[field := requiredFieldError]> errors
           else errors) ∅ fields.

End FormUtils.

(** ** The draft persister *)

Module FormPersister.

(** Modelled from the spec: the persister is supplied by the caller and
    is not part of the sources; "loadValues() -> draft | none,
    saveValues(draft) -> void" over one draft slot per editing context. *)
Record t := Make { slot : value }.

Definition loadValues (p : t) : value := slot p.
Definition saveValues (_ : t) (draft : value) : t := Make draft.

End FormPersister.

(** ** Formik *)

Module Formik.

(** [formik.setFieldValue(field, value)] for a top-level field of form
    values that are an object, which is Formik's [setIn(values, field,
    value)]: the values themselves when the field already reads as [value];
    otherwise a copy in which the property is deleted when [value] is
    [undefined] and set to [value] when it is anything else.  Nothing else
    of Formik is modelled. *)
Definition setFieldValue (field : string) (v : value) (values : gmap string value)
  : gmap string value :=
  match v with
  | VUndefined =>
      match default VUndefined (values !! field) with
      | VUndefined => values
      | _ => delete field values
      end
  | _ => <[field := v]> values
  end.

End Formik.

(** ** ExpenseForm *)

Module ExpenseForm.

(** The arrow function mapped over [expenseData.items]. *)
Definition prepareItem (expenseData item : value) : completion value :=
  isNew ← JS.get item "__isNew";
  type ← JS.get expenseData "type";
  Normal (VObject (Lodash.pick item
    ((if JS.truthy isNew then [] else ["id"])
     ++ (if JS.strict_eq_string type expenseTypes.INVOICE then [] else ["url"])
     ++ ["description"; "incurredAt"; "amount"]))).

Definition prepareExpenseForSubmit (expenseData : value) : completion value :=
  payee ← JS.get expenseData "payee";
  payeeId ← JS.get_opt payee "id";
  let payeeIdField := if JS.typeof_string payeeId then "id" else "legacyId" in
  let picked :=
    Lodash.pick expenseData
      ["id"; "description"; "type"; "privateMessage"; "invoiceInfo"; "tags"] in
  payee' ← (if JS.truthy payee
            then id ← JS.get payee "id"; Normal (VObject {[ payeeIdField := id ]})
            else Normal payee);
  payoutMethod ← JS.get expenseData "payoutMethod";
  attachedFiles ← JS.get expenseData "attachedFiles";
  attachedFiles' ←
    (if JS.nullish attachedFiles then Normal VUndefined
     else files ← JS.array_map
                    (λ file, Normal (VObject (Lodash.pick file ["id"; "url"])))
                    attachedFiles;
          Normal (VArray files));
  items ← JS.get expenseData "items";
  items' ← JS.array_map (prepareItem expenseData) items;
  Normal (VObject
    (<["items" := VArray items']>
     (<["attachedFiles" := attachedFiles']>
      (<["payoutMethod" :=
           VObject (Lodash.pick payoutMethod ["id"; "name"; "data"; "isSaved"; "type"])]>
       (<["payee" := payee']> picked))))).

(** The drafts [prepareExpenseForSubmit] returns on: an object whose
    [items] is an array without [null]/[undefined] entries and whose
    [attachedFiles] is unset or an array. *)
Definition submittable (expenseData : value) : bool :=
  match expenseData with
  | VObject m =>
      match m !! "items" with
      | Some (VArray its) => forallb (λ it, negb (JS.nullish it)) its
      | _ => false
      end
      && match m !! "attachedFiles" with
         | None | Some VUndefined | Some VNull | Some (VArray _) => true
         | _ => false
         end
  | _ => false
  end.

Section Validation.

Variable ToNumber_coerce : value → completion number.

(** The sub-validators of [ExpenseItemForm] and [PayoutMethodForm]:
    pure functions supplied from outside, from a draft and one of its
    items, or from a payout method, to an error mapping. *)
Variable validateExpenseItem : value → value → value.
Variable validatePayoutMethod : value → value.

Definition validate (expense : value) : completion (gmap string value) :=
  let errors :=
    FormUtils.requireFields expense ["description"; "payee"; "payoutMethod"; "currency"] in
  items ← JS.get expense "items";
  len ← JS.get items "length";
  nonempty ← JS.gt ToNumber_coerce len 0;
  errors ←
    (if nonempty : bool then
       items ← JS.get expense "items";
       itemsErrors ←
         JS.array_map (λ item, Normal (validateExpenseItem expense item)) items;
       let hasErrors := existsb (λ errors, negb (Lodash.isEmpty errors)) itemsErrors in
       Normal (if hasErrors then <["items" := VArray itemsErrors]> errors else errors)
     else Normal errors);
  payoutMethod ← JS.get expense "payoutMethod";
  Normal (if JS.truthy payoutMethod then
            let payoutMethodErrors := validatePayoutMethod payoutMethod in
            if negb (Lodash.isEmpty payoutMethodErrors)
            then <["payoutMethod" := payoutMethodErrors]> errors
            else errors
          else errors).

(** *** ExpenseFormBody: step gating *)

(** What the body reads of the [formik] bag. *)
Record formik := Formik {
  values : value;
  dirty : bool;
  isValid : bool;
}.

Definition hasBaseFormFieldsCompleted (values : value) : completion value :=
  type ← JS.get values "type";
  if JS.truthy type then JS.get values "description" else Normal type.

Definition stepOneCompleted (values : value) : completion value :=
  base ← hasBaseFormFieldsCompleted values;
  if JS.truthy base then
    items ← JS.get values "items";
    len ← JS.get items "length";
    b ← JS.gt ToNumber_coerce len 0;
    Normal (VBool b)
  else Normal base.

Definition stepTwoCompleted (values : value) : completion value :=
  one ← stepOneCompleted values;
  if JS.truthy one then JS.get values "payoutMethod" else Normal one.

(** The [disabled] attribute of the submit button. *)
Definition submitDisabled (fk : formik) : completion bool :=
  two ← stepTwoCompleted (values fk);
  Normal (negb (JS.truthy two) || negb (isValid fk)).

(** *** ExpenseFormBody: loading the saved draft *)

(** The effect that loads values from local storage.  [Some v] is the
    call [setValues(v)]; [None] is no call. *)
Definition loadEffect (formPersister : option FormPersister.t) (fk : formik)
    (collective : value) : completion (option value) :=
  match formPersister with
  | Some persister =>
      if negb (dirty fk) then
        let formValues := FormPersister.loadValues persister in
        if JS.truthy formValues then
          payoutMethod ← JS.get formValues "payoutMethod";
          type ← JS.get_opt payoutMethod "type";
          reset ←
            (if JS.strict_eq_string type PayoutMethodType.BANK_ACCOUNT then
               host ← JS.get collective "host";
               transferwise ← JS.get host "transferwise";
               Normal (negb (JS.truthy transferwise))
             else Normal false);
          Normal (Some
            (if reset : bool then
               (* only an object has a [payoutMethod] with a [type] *)
               match formValues with
               | VObject m => VObject (<["payoutMethod" := VUndefined]> m)
               | _ => formValues
               end
             else formValues))
        else Normal None
      else Normal None
  | None => Normal None
  end.

(** *** ExpenseForm: the submit handler *)

(** The state of the form the handler touches: the [hasValidate] hook,
    the errors held by formik, and the calls made to the [onSubmit]
    prop, latest first. *)
Record form := Form {
  hasValidate : bool;
  formikErrors : gmap string value;
  onSubmitCalls : list value;
}.

Definition setValidate (b : bool) : run form unit :=
  λ st, (Normal (), Form b (formikErrors st) (onSubmitCalls st)).

Definition setErrors (errors : gmap string value) : run form unit :=
  λ st, (Normal (), Form (hasValidate st) errors (onSubmitCalls st)).

(** What the [onSubmit] prop completes with is the caller's. *)
Variable onSubmit_result : value → completion value.

Definition onSubmit (values : value) : run form value :=
  λ st, (onSubmit_result values,
         Form (hasValidate st) (formikErrors st) (values :: onSubmitCalls st)).

(** The [validate] prop given to Formik: [hasValidate && validate]. *)
Definition validateProp (st : form) : option (value → completion (gmap string value)) :=
  if hasValidate st then Some validate else None.

(** Formik's [onSubmit]. *)
Definition handleSubmit (values : value) : run form value :=
  errors ← lift (validate values);
  if negb (Lodash.isEmpty (VObject errors)) then
    _ ← setValidate true;
    _ ← setErrors errors;
    mret VUndefined
  else
    onSubmit values.

(** The form after a series of submit attempts, in order. *)
Definition afterSubmits (attempts : list value) (st : form) : form :=
  foldl (λ st values, (handleSubmit values st).2) st attempts.

(** *** validate, with the store it runs in

    To state that [validate] has no side effect the objects it is handed
    and the one it builds live in a store: [expense] is a reference, the
    error mapping is a fresh object that the function then assigns to. *)

Definition alloc (v : value) : run (gmap nat value) nat :=
  λ h, let l := fresh (dom h) in (Normal l, <[l := v]> h).

Definition deref (l : nat) : run (gmap nat value) value :=
  λ h, match h !! l with
       | Some v => (Normal v, h)
       | None => (Throw ReferenceError, h)
       end.

(** [o.k = v] on an object of the store. *)
Definition assign (l : nat) (k : string) (v : value) : run (gmap nat value) unit :=
  λ h, match h !! l with
       | Some (VObject m) => (Normal (), <[l := VObject (<[k := v]> m)]> h)
       | _ => (Throw TypeError, h)
       end.

(** Modelled from the spec: [requireFields] of [lib/form-utils] is not
    part of the sources; it reads the draft and returns a new error
    mapping. *)
Definition requireFields_in (obj : nat) (fields : list string) : run (gmap nat value) nat :=
  o ← deref obj;
  alloc (VObject (FormUtils.requireFields o fields)).

Definition validate_in (expense : nat) : run (gmap nat value) nat :=
  errors ← requireFields_in expense ["description"; "payee"; "payoutMethod"; "currency"];
  e ← deref expense;
  items ← lift (JS.get e "items");
  len ← lift (JS.get items "length");
  nonempty ← lift (JS.gt ToNumber_coerce len 0);
  _ ← (if nonempty : bool then
         e ← deref expense;
         items ← lift (JS.get e "items");
         itemsErrors ←
           lift (JS.array_map (λ item, Normal (validateExpenseItem e item)) items);
         let hasErrors := existsb (λ errors, negb (Lodash.isEmpty errors)) itemsErrors in
         if hasErrors then assign errors "items" (VArray itemsErrors) else mret ()
       else mret ());
  e ← deref expense;
  payoutMethod ← lift (JS.get e "payoutMethod");
  _ ← (if JS.truthy payoutMethod then
         let payoutMethodErrors := validatePayoutMethod payoutMethod in
         if negb (Lodash.isEmpty payoutMethodErrors)
         then assign errors "payoutMethod" payoutMethodErrors
         else mret ()
       else mret ());
  mret errors.

(** What a caller sees of a run: the exception, or the object the
    returned reference points to. *)
Definition observe (r : completion nat * gmap nat value) : completion value :=
  match r with
  | (Normal l, h) => Normal (default VUndefined (h !! l))
  | (Throw e, _) => Throw e
  end.

End Validation.

(** *** The form as it is mounted *)

(** [ExpenseForm.defaultProps]: [validateOnChange: false]. *)
Definition defaultValidateOnChange : bool := false.

(** The state of a form just mounted: [React.useState(validateOnChange)],
    no error held, [onSubmit] not called yet. *)
Definition mountedForm (validateOnChange : bool) : form :=
  Form validateOnChange ∅ [].

(** *** The default expense and the initial values *)

Definition getDefaultExpense (collective payoutProfiles : value) : completion value :=
  currency ← JS.get collective "currency";
  Normal (VObject
    {[ "description" := VString ""; "items" := VArray [];
       "payee" := Lodash.first payoutProfiles; "payoutMethod" := VUndefined;
       "privateInfo" := VString ""; "currency" := currency ]}).

(** [initialValues] of the form:
    [{ ...getDefaultExpense(collective, payoutProfiles), ...expense }]. *)
Definition initialValues (collective payoutProfiles expense : value) : completion value :=
  defaults ← getDefaultExpense collective payoutProfiles;
  Normal (VObject (JS.spread (JS.spread ∅ defaults) expense)).

(** *** ExpenseFormBody: the other effects and handlers *)

(** The effect that sets the default payout profile.  [Some v] is the call
    [formik.setFieldValue('payee', v)]; [None] is no call. *)
Definition defaultPayeeEffect (fk : formik) (payoutProfiles : value)
  : completion (option value) :=
  payee ← JS.get (values fk) "payee";
  Normal (if negb (JS.truthy payee) && negb (Lodash.isEmpty payoutProfiles)
          then Some (Lodash.first payoutProfiles)
          else None).

(** The effect that saves values in local storage.  [Some v] is the call
    [formPersister.saveValues(v)]; [None] is no call. *)
Definition saveEffect (formPersister : option FormPersister.t) (fk : formik)
  : option value :=
  if dirty fk then
    match formPersister with
    | Some _ => Some (values fk)
    | None => None
    end
  else None.

(** [onChange] of the payee picker, on form values that are an object:
    [({ value }) => { setFieldValue('payee', value);
                      setFieldValue('payoutMethod', null) }]. *)
Definition onChangePayee (selected : value) (values : gmap string value)
  : completion (gmap string value) :=
  value ← JS.get selected "value";
  Normal (Formik.setFieldValue "payoutMethod" VNull
            (Formik.setFieldValue "payee" value values)).


End ExpenseForm.

(** ** EditMemberModal *)

Module EditMemberModal.

(** A call the modal makes to the outside, with the value the [submitting]
    hook has while the call is made (and, for the mutation, awaited). *)
Inductive call :=
| SubmitMemberForm (submitting : bool)
| EditMemberAccount (options : value) (submitting : bool)
| ContinueHandler (submitting : bool).

(** The [submitting] hook and the calls made so far, latest first. *)
Record modal := Modal {
  submitting : bool;
  calls : list call;
}.

(** [React.useState(false)] *)
Definition initial : modal := Modal false [].

Definition setSubmitting (b : bool) : run modal unit :=
  λ st, (Normal (), Modal b (calls st)).

Section Handlers.

(** Props. *)
Variables member collective : value.

(** [submitMemberForm]: [None] while it is [null], [Some r] once
    [bindSubmitForm] has stored the sub-form's submit function, a call of
    which completes with [r]. *)
Variable submitMemberForm : option (completion value).

(** What awaiting the mutation completes with: the result it resolves
    to, or its rejection. *)
Variable editMemberAccount_result : value → completion value.

Definition call_submitMemberForm (r : completion value) : run modal value :=
  λ st, (r, Modal (submitting st) (SubmitMemberForm (submitting st) :: calls st)).

Definition editMemberAccount (options : value) : run modal value :=
  λ st, (editMemberAccount_result options,
         Modal (submitting st) (EditMemberAccount options (submitting st) :: calls st)).

(** [handleSubmitForm] of [EditMemberModal.js]. *)
Definition handleSubmitForm (values : value) : run modal value :=
  match submitMemberForm with
  | Some r =>
      _ ← call_submitMemberForm r;
      description ← lift (JS.get values "description");
      role ← lift (JS.get values "role");
      since ← lift (JS.get values "since");
      memberMember ← lift (JS.get member "member");
      result ← editMemberAccount
        (VObject {[ "variables" := VObject
           (<["memberAccount" := VObject {[ "slug" := Lodash.get memberMember "slug" ]}]>
            (<["account" := VObject {[ "slug" := Lodash.get collective "slug" ]}]>
             (<["description" := description]>
              (<["role" := role]>
               {[ "since" := since ]})))) ]});
      data ← lift (JS.get result "data");
      editedMemberAccount ← lift (JS.get data "editMemberAccount");
      _ ← setSubmitting true;
      mret VUndefined
  | None => mret VUndefined
  end.

(** The other version of the modal (the one that takes [continueHandler])
    confirms with
    [try { setSubmitting(true); await continueHandler() }
     catch (e) { setSubmitting(false); throw e }]. *)

(** [setSubmitting] as the handler's scope resolves it: [None] when no
    declaration is in scope, where using the identifier raises
    [ReferenceError]. *)
Variable setSubmitting_in_scope : option (bool → run modal unit).

Variable continueHandler_result : completion value.

Definition call_setSubmitting (b : bool) : run modal unit :=
  match setSubmitting_in_scope with
  | Some f => f b
  | None => throw ReferenceError
  end.

Definition continueHandler : run modal value :=
  λ st, (continueHandler_result,
         Modal (submitting st) (ContinueHandler (submitting st) :: calls st)).

Definition onClickContinue : run modal value :=
  try_catch
    (_ ← call_setSubmitting true;
     _ ← continueHandler;
     mret VUndefined)
    (λ e, _ ← call_setSubmitting false; throw e).

End Handlers.

End EditMemberModal.

(** ** Sample data *)

Module Samples.

Definition newItem : value :=
  VObject {[ "id" := VString "7f3c-key"; "__isNew" := VBool true;
             "url" := VString "https://example.org/receipt.png";
             "description" := VString "Server"; "incurredAt" := VString "2020-05-01";
             "amount" := VNumber (Int 1200) ]}.

Definition savedItem : value :=
  VObject {[ "id" := VString "item-2";
             "url" := VString "https://example.org/domain.pdf";
             "description" := VString "Domain"; "incurredAt" := VString "2020-05-02";
             "amount" := VNumber (Int 1500) ]}.

Definition bankAccount : value :=
  VObject {[ "id" := VString "pm-1"; "type" := VString "BANK_ACCOUNT";
             "name" := VString "Main account" ]}.

Definition draftFields (description payee : value) (items : list value)
  : gmap string value :=
  {[ "type" := VString "INVOICE"; "description" := description;
     "currency" := VString "USD"; "payee" := payee;
     "payoutMethod" := bankAccount; "items" := VArray items ]}.

Definition draftWith (description payee : value) (items : list value) : value :=
  VObject (draftFields description payee items).

Definition invoice : value :=
  draftWith (VString "Hosting") (VObject {[ "id" := VString "abc" ]}) [newItem; savedItem].

Definition legacyPayeeInvoice : value :=
  draftWith (VString "Hosting")
    (VObject {[ "id" := VNumber (Int 42); "legacyId" := VNumber (Int 42) ]})
    [newItem; savedItem].

Definition noPayeeInvoice : value :=
  draftWith (VString "Hosting") VNull [newItem; savedItem].

Definition untitledInvoice : value :=
  draftWith (VString "") (VObject {[ "id" := VString "abc" ]}) [newItem; savedItem].

Definition noItemsInvoice : value :=
  draftWith (VString "Hosting") (VObject {[ "id" := VString "abc" ]}) [].

(** A runtime whose coercions all give [NaN], and validators that accept
    everything. *)
Definition coerceNaN : value → completion number := λ _, Normal NaN.
Definition acceptItem : value → value → value := λ _ _, VObject ∅.
Definition acceptPayoutMethod : value → value := λ _, VObject ∅.
Definition resolveSubmit : value → completion value := λ _, Normal VUndefined.

Definition hostWithoutTransferwise : value :=
  VObject {[ "slug" := VString "host" ]}.

Definition collectiveWithoutTransferwise : value :=
  VObject {[ "slug" := VString "webpack"; "host" := hostWithoutTransferwise ]}.

Definition emptyForm : ExpenseForm.form := ExpenseForm.Form false ∅ [].

(** The formik bag of a form just mounted on the default expense of a
    collective in USD, nothing edited yet. *)
Definition mounted : ExpenseForm.formik :=
  ExpenseForm.Formik
    (VObject {[ "description" := VString ""; "items" := VArray [];
                "payoutMethod" := VUndefined; "privateInfo" := VString "";
                "currency" := VString "USD" ]})
    false true.

(** A member edit: the member [alice] of the collective [webpack]. *)
Definition member : value :=
  VObject {[ "member" := VObject {[ "slug" := VString "alice" ]} ]}.

Definition memberValues : value :=
  VObject {[ "description" := VString "d"; "role" := VString "ADMIN";
             "since" := VString "2020-01-01" ]}.

Definition editOptions : value :=
  VObject {[ "variables" := VObject
    {[ "memberAccount" := VObject {[ "slug" := VString "alice" ]};
       "account" := VObject {[ "slug" := VString "webpack" ]};
       "description" := VString "d"; "role" := VString "ADMIN";
       "since" := VString "2020-01-01" ]} ]}.

Definition networkError : exn := Rejected (VString "Network error").

(** A receipt with two attached files, one of them with a property the
    API does not take. *)
Definition receiptFields : gmap string value :=
  {[ "type" := VString "RECEIPT"; "description" := VString "Train";
     "currency" := VString "USD"; "privateInfo" := VString "seat 12";
     "payee" := VObject {[ "legacyId" := VNumber (Int 42) ]};
     "attachedFiles" := VArray
       [ VObject {[ "id" := VString "file-1"; "url" := VString "https://example.org/a.pdf";
                    "name" := VString "a.pdf" ]};
         VObject {[ "url" := VString "https://example.org/b.pdf" ]} ];
     "items" := VArray [newItem] ]}.

Definition receiptPayload : gmap string value :=
  {[ "type" := VString "RECEIPT"; "description" := VString "Train";
     "payee" := VObject {[ "legacyId" := VUndefined ]};
     "payoutMethod" := VObject ∅;
     "attachedFiles" := VArray
       [ VObject {[ "id" := VString "file-1"; "url" := VString "https://example.org/a.pdf" ]};
         VObject {[ "url" := VString "https://example.org/b.pdf" ]} ];
     "items" := VArray
       [ VObject {[ "url" := VString "https://example.org/receipt.png";
                    "description" := VString "Server";
                    "incurredAt" := VString "2020-05-01";
                    "amount" := VNumber (Int 1200) ]} ] ]}.

Definition invoiceFields : gmap string value :=
  draftFields (VString "Hosting") (VObject {[ "id" := VString "abc" ]}) [newItem; savedItem].

Definition invoicePayload : gmap string value :=
  {[ "type" := VString "INVOICE"; "description" := VString "Hosting";
     "payee" := VObject {[ "id" := VString "abc" ]};
     "payoutMethod" := bankAccount;
     "attachedFiles" := VUndefined;
     "items" := VArray
       [ VObject {[ "description" := VString "Server";
                    "incurredAt" := VString "2020-05-01";
                    "amount" := VNumber (Int 1200) ]};
         VObject {[ "id" := VString "item-2"; "description" := VString "Domain";
                    "incurredAt" := VString "2020-05-02";
                    "amount" := VNumber (Int 1500) ]} ] ]}.

(** A draft that lost its [items]. *)
Definition draftWithoutItems : gmap string value :=
  {[ "type" := VString "INVOICE"; "description" := VString "Hosting" ]}.

(** An item without description, and validators that ask for things. *)
Definition unnamedItem : value := VObject {[ "amount" := VNumber (Int 5) ]}.

Definition requireDescription : value → value → value :=
  λ _ item, VObject (FormUtils.requireFields item ["description"]).

Definition requireData : value → value :=
  λ payoutMethod, VObject (FormUtils.requireFields payoutMethod ["data"]).

Definition chosenPayee : value :=
  VObject {[ "value" := VObject {[ "id" := VString "xyz" ]} ]}.

Definition collectiveWithoutHost : value :=
  VObject {[ "slug" := VString "webpack" ]}.

Definition draftWithoutPayoutMethod : value :=
  VObject {[ "type" := VString "RECEIPT"; "description" := VString "Train";
             "items" := VArray [newItem] ]}.

End Samples.

(** * Properties *)

Section Pick.

Lemma pick_lookup (m : gmap string value) (paths : list string) (k : string) :
  Lodash.pick (VObject m) paths !! k = if decide (k ∈ paths) then m !! k else None.
Proof.
  simpl. induction paths as [|p paths IH]; simpl.
  - by rewrite lookup_empty.
  - destruct (decide (k = p)) as [->|Hne].
    + rewrite decide_True by left.
      destruct (m !! p) as [v|] eqn:Hp.
      * by rewrite lookup_insert_eq.
      * rewrite IH. by case_decide.
    + assert ((if decide (k ∈ p :: paths) then m !! k else None)
              = if decide (k ∈ paths) then m !! k else None) as ->.
      { destruct (decide (k ∈ paths)) as [Hin|Hout].
        - rewrite decide_True; [done|by right].
        - rewrite decide_False; [done|]. by intros [?|?]%elem_of_cons. }
      destruct (m !! p) as [v|]; [|done].
      by rewrite lookup_insert_ne.
Qed.

Lemma pick_lookup_not_listed (v : value) (paths : list string) (k : string) :
  k ∉ paths → Lodash.pick v paths !! k = None.
Proof.
  intros Hk. destruct v; try apply lookup_empty.
  rewrite pick_lookup. by rewrite decide_False.
Qed.

End Pick.

Section Completion.

Context {A B : Type}.

Lemma bind_Normal (a : A) (f : A → completion B) : (Normal a ≫= f) = f a.
Proof. reflexivity. Qed.

Lemma bind_Throw (e : exn) (f : A → completion B) : (Throw e ≫= f) = Throw e.
Proof. reflexivity. Qed.

Lemma mapM_Normal (f : A → completion B) (l : list A) (k : list B) :
  mapM f l = Normal k ↔ Forall2 (λ x y, f x = Normal y) l k.
Proof.
  revert k. induction l as [|x l IH]; intros k; simpl.
  - split.
    + intros [= <-]. constructor.
    + by inversion 1.
  - split.
    + destruct (f x) as [y|e] eqn:Hx; [|done]. simpl.
      destruct (mapM f l) as [k'|e] eqn:Hl; [|done]. simpl.
      intros [= <-]. constructor; [done|]. by apply IH.
    + inversion 1 as [|? y ? k' Hx Hl]; subst.
      rewrite Hx. simpl. apply IH in Hl. by rewrite Hl.
Qed.

Lemma mapM_total (f : A → completion B) (l : list A) :
  Forall (λ x, ∃ y, f x = Normal y) l → ∃ k, mapM f l = Normal k.
Proof.
  induction 1 as [|x l [y Hx] _ [k Hk]]; simpl.
  - by eexists.
  - rewrite Hx. simpl. rewrite Hk. by eexists.
Qed.

Lemma mapM_pure (g : A → B) (l : list A) :
  mapM (λ x, Normal (g x)) l = Normal (map g l).
Proof. induction l as [|x l IH]; simpl; [done|]. by rewrite IH. Qed.

End Completion.

Section Run.

Context {S A B : Type}.

Lemma run_bind_Normal (c : run S A) (f : A → run S B) (s s' : S) (a : A) :
  c s = (Normal a, s') → (c ≫= f) s = f a s'.
Proof. intros H. unfold mbind, run_bind. by rewrite H. Qed.

Lemma run_bind_Throw (c : run S A) (f : A → run S B) (s s' : S) (e : exn) :
  c s = (Throw e, s') → (c ≫= f) s = (Throw e, s').
Proof. intros H. unfold mbind, run_bind. by rewrite H. Qed.

Lemma run_bind_lift (c : completion A) (f : A → run S B) (s : S) :
  (lift c ≫= f) s = match c with
                     | Normal a => f a s
                     | Throw e => (Throw e, s)
                     end.
Proof. unfold mbind, run_bind, lift. by destruct c. Qed.

End Run.

Section Reads.

Lemma truthy_not_nullish (v : value) : JS.truthy v = true → JS.nullish v = false.
Proof. by destruct v. Qed.

Lemma get_not_nullish (v : value) (k : string) :
  JS.nullish v = false → JS.get v k = Normal (Lodash.get v k).
Proof. unfold Lodash.get. by destruct v. Qed.

Lemma get_object (m : gmap string value) (k : string) :
  JS.get (VObject m) k = Normal (default VUndefined (m !! k)).
Proof. reflexivity. Qed.

End Reads.

Section PrepareExpenseForSubmit.

Import ExpenseForm.

(** The property names picked for an item. *)
Lemma prepareItem_object (expenseData : value) (m : gmap string value) :
  JS.nullish expenseData = false →
  prepareItem expenseData (VObject m) =
    Normal (VObject (Lodash.pick (VObject m)
      ((if JS.truthy (default VUndefined (m !! "__isNew")) then [] else ["id"])
       ++ (if JS.strict_eq_string (Lodash.get expenseData "type") expenseTypes.INVOICE
           then [] else ["url"])
       ++ ["description"; "incurredAt"; "amount"]))).
Proof.
  intros Hd. unfold prepareItem. rewrite get_object, bind_Normal.
  by rewrite (get_not_nullish expenseData) by done.
Qed.

Lemma prepareItem_total (expenseData item : value) :
  JS.nullish expenseData = false → JS.nullish item = false →
  ∃ o, prepareItem expenseData item = Normal (VObject o).
Proof.
  intros Hd Hi. unfold prepareItem.
  rewrite (get_not_nullish item), bind_Normal by done.
  rewrite (get_not_nullish expenseData), bind_Normal by done.
  by eexists.
Qed.

(** On a submittable draft the function returns, and the payload's
    [items] and [payee] are as follows. *)
Lemma prepareExpenseForSubmit_returns (expenseData : value) :
  submittable expenseData = true →
  ∃ payload its items',
    prepareExpenseForSubmit expenseData = Normal (VObject payload)
    ∧ JS.get expenseData "items" = Normal (VArray its)
    ∧ payload !! "items" = Some (VArray items')
    ∧ Forall2 (λ item item', prepareItem expenseData item = Normal item') its items'
    ∧ payload !! "payee" =
        Some (let payee := Lodash.get expenseData "payee" in
              if JS.truthy payee
              then VObject {[ (if JS.typeof_string (Lodash.get payee "id")
                               then "id" else "legacyId") := Lodash.get payee "id" ]}
              else payee).
Proof.
  destruct expenseData as [| | | | | |m]; try done. simpl.
  destruct (m !! "items") as [[| | | | |its|]|] eqn:Hits; try done.
  intros [Hitems Hfiles]%andb_prop.
  assert (∃ items', mapM (prepareItem (VObject m)) its = Normal items') as [items' Hmap].
  { apply mapM_total. rewrite forallb_forall in Hitems.
    apply Forall_forall. intros it Hin. apply list_elem_of_In, Hitems in Hin.
    destruct (prepareItem_total (VObject m) it) as [o Ho]; [done| |by eexists].
    by destruct (JS.nullish it). }
  unfold prepareExpenseForSubmit.
  rewrite !get_object, !bind_Normal. rewrite Hits. simpl default.
  set (payee := default VUndefined (m !! "payee")).
  assert (∃ r, JS.get_opt payee "id" = Normal r ∧
               (JS.truthy payee = true → r = Lodash.get payee "id")) as (r & -> & Hr).
  { unfold JS.get_opt. destruct (JS.nullish payee) eqn:Hn.
    - eexists; split; [done|]. intros ?%truthy_not_nullish. congruence.
    - rewrite get_not_nullish by done. by eexists. }
  rewrite bind_Normal.
  assert (∃ files, (if JS.nullish (default VUndefined (m !! "attachedFiles"))
                    then Normal VUndefined
                    else files ← JS.array_map
                           (λ file, Normal (VObject (Lodash.pick file ["id"; "url"])))
                           (default VUndefined (m !! "attachedFiles"));
                         Normal (VArray files)) = Normal files) as [files Hf].
  { destruct (m !! "attachedFiles") as [[| | | | |fs|]|]; simpl; try done;
      try by eexists.
    rewrite mapM_pure. by eexists. }
  assert (Lodash.get (VObject m) "payee" = payee) as -> by done.
  destruct (JS.truthy payee) eqn:Htr.
  - rewrite (get_not_nullish payee) by by apply truthy_not_nullish.
    rewrite !bind_Normal, Hf, !bind_Normal. simpl JS.array_map.
    rewrite Hmap, bind_Normal.
    eexists _, its, items'. split_and!; [done|done| | |].
    + by rewrite lookup_insert_eq.
    + by apply mapM_Normal.
    + rewrite !lookup_insert_ne by done. rewrite lookup_insert_eq.
      by rewrite Hr.
  - rewrite !bind_Normal, Hf, !bind_Normal. simpl JS.array_map.
    rewrite Hmap, bind_Normal.
    eexists _, its, items'. split_and!; [done|done| | |].
    + by rewrite lookup_insert_eq.
    + by apply mapM_Normal.
    + rewrite !lookup_insert_ne by done. by rewrite lookup_insert_eq.
Qed.

Lemma prepareItem_returns_only (expenseData item item' : value) :
  prepareItem expenseData item = Normal item' → JS.nullish item = false.
Proof. by destruct item. Qed.

(** [submittable] is exactly the domain on which the function returns. *)
Lemma prepareExpenseForSubmit_returns_only (expenseData : value) (payload : value) :
  prepareExpenseForSubmit expenseData = Normal payload →
  submittable expenseData = true.
Proof.
  destruct expenseData as [| |b|n|s|l|m]; try done.
  unfold prepareExpenseForSubmit. rewrite !get_object, !bind_Normal.
  set (payee := default VUndefined (m !! "payee")).
  assert (∃ r, JS.get_opt payee "id" = Normal r) as [r ->].
  { unfold JS.get_opt. destruct (JS.nullish payee) eqn:Hn; [by eexists|].
    rewrite get_not_nullish by done. by eexists. }
  rewrite bind_Normal.
  assert (∃ payee', (if JS.truthy payee
                     then id ← JS.get payee "id";
                          Normal (VObject
                            {[ (if JS.typeof_string r then "id" else "legacyId") := id ]})
                     else Normal payee) = Normal payee') as [payee' ->].
  { destruct (JS.truthy payee) eqn:Htr; [|by eexists].
    rewrite get_not_nullish by by apply truthy_not_nullish. by eexists. }
  rewrite !bind_Normal. simpl submittable.
  assert (∀ its items',
            mapM (prepareItem (VObject m)) its = Normal items' →
            forallb (λ it, negb (JS.nullish it)) its = true) as Hitems.
  { intros its items' Hmap%mapM_Normal.
    induction Hmap as [|it it' its items' Hit _ IH]; [done|].
    simpl. by rewrite (prepareItem_returns_only _ _ _ Hit). }
  destruct (m !! "attachedFiles") as [[| | | | |fs|]|]; simpl; try done;
    rewrite ?mapM_pure, ?bind_Normal;
    (destruct (m !! "items") as [[| | | | |its|]|]; simpl; try done;
     destruct (mapM (prepareItem (VObject m)) its) as [items'|] eqn:Hmap; [|done];
     intros _; rewrite andb_true_r; by eapply Hitems).
Qed.

(** The payload of the sample invoice: the new item loses its [id], both
    items lose their [url]. *)
Example prepareExpenseForSubmit_invoice :
  prepareExpenseForSubmit Samples.invoice =
    Normal (VObject
      {[ "type" := VString "INVOICE"; "description" := VString "Hosting";
         "payee" := VObject {[ "id" := VString "abc" ]};
         "payoutMethod" := Samples.bankAccount;
         "attachedFiles" := VUndefined;
         "items" := VArray
           [ VObject {[ "description" := VString "Server";
                        "incurredAt" := VString "2020-05-01";
                        "amount" := VNumber (Int 1200) ]};
             VObject {[ "id" := VString "item-2"; "description" := VString "Domain";
                        "incurredAt" := VString "2020-05-02";
                        "amount" := VNumber (Int 1500) ]} ] ]}).
Proof. vm_compute. reflexivity. Qed.

(** C1. For every draft expense whose type is INVOICE, every item object
    of the payload returned by [prepareExpenseForSubmit] is without the
    [url] property, whether or not the input item carried one. *)
Theorem invoice_items_have_no_url (expenseData : value) :
  submittable expenseData = true →
  JS.get expenseData "type" = Normal (VString expenseTypes.INVOICE) →
  ∃ payload its items',
    prepareExpenseForSubmit expenseData = Normal (VObject payload)
    ∧ JS.get expenseData "items" = Normal (VArray its)
    ∧ payload !! "items" = Some (VArray items')
    ∧ Forall2 (λ _ item', ∃ o, item' = VObject o ∧ o !! "url" = None) its items'.
Proof.
  intros Hsub Htype.
  destruct (prepareExpenseForSubmit_returns _ Hsub)
    as (payload & its & items' & Hrun & Hits & Hitems & Hall & _).
  exists payload, its, items'. split_and!; try done.
  eapply Forall2_impl; [exact Hall|]. intros item item'. simpl.
  unfold prepareItem. rewrite Htype.
  destruct (JS.get item "__isNew") as [isNew|]; [|done].
  rewrite !bind_Normal. intros [= <-]. eexists; split; [done|].
  apply pick_lookup_not_listed.
  destruct (JS.truthy isNew); simpl; set_solver.
Qed.

(** C2. For every draft expense and every item in it, the item object
    produced by [prepareExpenseForSubmit] carries no [id] when the item's
    [__isNew] flag is set and carries the item's [id] otherwise (so, for an
    item that has an [id], the [id] is left out exactly when the flag is
    set); [description], [incurredAt] and [amount] are always carried
    over. *)
Theorem item_id_follows_isNew (expenseData : value) :
  submittable expenseData = true →
  ∃ payload its items',
    prepareExpenseForSubmit expenseData = Normal (VObject payload)
    ∧ JS.get expenseData "items" = Normal (VArray its)
    ∧ payload !! "items" = Some (VArray items')
    ∧ Forall2 (λ item item',
        ∀ m, item = VObject m →
          ∃ o, item' = VObject o
            ∧ o !! "id" = (if JS.truthy (Lodash.get item "__isNew")
                           then None else m !! "id")
            ∧ (is_Some (m !! "id") →
               (o !! "id" = None ↔ JS.truthy (Lodash.get item "__isNew") = true))
            ∧ o !! "description" = m !! "description"
            ∧ o !! "incurredAt" = m !! "incurredAt"
            ∧ o !! "amount" = m !! "amount") its items'.
Proof.
  intros Hsub.
  destruct (prepareExpenseForSubmit_returns _ Hsub)
    as (payload & its & items' & Hrun & Hits & Hitems & Hall & _).
  exists payload, its, items'. split_and!; try done.
  eapply Forall2_impl; [exact Hall|]. intros item item' Hitem m ->.
  rewrite prepareItem_object in Hitem by by destruct expenseData.
  match type of Hitem with
  | Normal (VObject ?picked) = _ => exists picked; split; [congruence|]
  end.
  assert (Lodash.get (VObject m) "__isNew" = default VUndefined (m !! "__isNew"))
    as -> by done.
  assert (∀ k, k ∈ ["description"; "incurredAt"; "amount"] →
            ∀ pre, Lodash.pick (VObject m)
                     (pre ++ ["description"; "incurredAt"; "amount"]) !! k = m !! k)
    as Hkept.
  { intros k Hk pre. rewrite pick_lookup, decide_True; [done|].
    apply elem_of_app. by right. }
  assert (Lodash.pick (VObject m)
            ((if JS.truthy (default VUndefined (m !! "__isNew")) then [] else ["id"])
             ++ (if JS.strict_eq_string (Lodash.get expenseData "type")
                                        expenseTypes.INVOICE
                 then [] else ["url"])
             ++ ["description"; "incurredAt"; "amount"]) !! "id"
          = if JS.truthy (default VUndefined (m !! "__isNew")) then None else m !! "id")
    as Hid.
  { rewrite pick_lookup.
    destruct (JS.truthy (default VUndefined (m !! "__isNew"))).
    - rewrite decide_False; [done|].
      destruct (JS.strict_eq_string _ _); set_solver.
    - rewrite decide_True; [done|]. set_solver. }
  split_and!.
  - exact Hid.
  - intros [i Hi]. rewrite Hid, Hi.
    by destruct (JS.truthy (default VUndefined (m !! "__isNew"))).
  - rewrite app_assoc. apply Hkept. set_solver.
  - rewrite app_assoc. apply Hkept. set_solver.
  - rewrite app_assoc. apply Hkept. set_solver.
Qed.

(** The payee of the payload when the draft's payee is set. *)
Lemma payee_reduction (expenseData payee : value) :
  submittable expenseData = true →
  JS.get expenseData "payee" = Normal payee →
  JS.truthy payee = true →
  ∃ payload,
    prepareExpenseForSubmit expenseData = Normal (VObject payload)
    ∧ payload !! "payee" =
        Some (VObject {[ (if JS.typeof_string (Lodash.get payee "id")
                          then "id" else "legacyId") := Lodash.get payee "id" ]}).
Proof.
  intros Hsub Hpayee Htr.
  destruct (prepareExpenseForSubmit_returns _ Hsub)
    as (payload & its & items' & Hrun & _ & _ & _ & Hout).
  exists payload. split; [done|]. rewrite Hout.
  unfold Lodash.get at 1 2 4. rewrite Hpayee. simpl. by rewrite Htr.
Qed.

(** C3. For every draft expense with a set payee, [prepareExpenseForSubmit]
    reduces the payee to one identifier property: [{id: payee.id}] when
    [payee.id] is a string, and otherwise the identifier under the legacy
    key, [{legacyId: payee.id}].  In particular [{id: "abc"}] gives
    [{id: "abc"}], and [{id: 42, legacyId: 42}] gives the identifier under
    [legacyId]. *)
Theorem payee_reduced_to_identifier :
  (∀ expenseData payee,
     submittable expenseData = true →
     JS.get expenseData "payee" = Normal payee →
     JS.truthy payee = true →
     ∃ payload id,
       prepareExpenseForSubmit expenseData = Normal (VObject payload)
       ∧ JS.get payee "id" = Normal id
       ∧ payload !! "payee" =
           Some (VObject (if JS.typeof_string id
                          then {[ "id" := id ]} else {[ "legacyId" := id ]})))
  ∧ (∀ expenseData,
       submittable expenseData = true →
       JS.get expenseData "payee" = Normal (VObject {[ "id" := VString "abc" ]}) →
       ∃ payload,
         prepareExpenseForSubmit expenseData = Normal (VObject payload)
         ∧ payload !! "payee" = Some (VObject {[ "id" := VString "abc" ]}))
  ∧ (∀ expenseData,
       submittable expenseData = true →
       JS.get expenseData "payee" =
         Normal (VObject {[ "id" := VNumber (Int 42); "legacyId" := VNumber (Int 42) ]}) →
       ∃ payload,
         prepareExpenseForSubmit expenseData = Normal (VObject payload)
         ∧ payload !! "payee" = Some (VObject {[ "legacyId" := VNumber (Int 42) ]})).
Proof.
  split_and!.
  - intros expenseData payee Hsub Hpayee Htr.
    destruct (payee_reduction _ _ Hsub Hpayee Htr) as (payload & Hrun & Hout).
    exists payload, (Lodash.get payee "id"). split_and!; [done| |].
    + apply get_not_nullish. by apply truthy_not_nullish.
    + rewrite Hout. by destruct (JS.typeof_string _).
  - intros expenseData Hsub Hpayee.
    by destruct (payee_reduction _ _ Hsub Hpayee eq_refl) as (payload & Hrun & Hout);
      exists payload.
  - intros expenseData Hsub Hpayee.
    by destruct (payee_reduction _ _ Hsub Hpayee eq_refl) as (payload & Hrun & Hout);
      exists payload.
Qed.

(** C10. For every draft expense whose payee is unset ([null], [undefined],
    or any other falsy value) [prepareExpenseForSubmit] builds no identifier
    object: the payload's [payee] is that unset value itself. *)
Theorem unset_payee_passed_through (expenseData payee : value) :
  submittable expenseData = true →
  JS.get expenseData "payee" = Normal payee →
  JS.truthy payee = false →
  ∃ payload,
    prepareExpenseForSubmit expenseData = Normal (VObject payload)
    ∧ payload !! "payee" = Some payee
    ∧ ∀ o, payee ≠ VObject o.
Proof.
  intros Hsub Hpayee Hfalsy.
  destruct (prepareExpenseForSubmit_returns _ Hsub)
    as (payload & its & items' & Hrun & _ & _ & _ & Hout).
  exists payload. split_and!; [done| |].
  - rewrite Hout. unfold Lodash.get. rewrite Hpayee. simpl. by rewrite Hfalsy.
  - intros o ->. done.
Qed.

End PrepareExpenseForSubmit.

Section Validate.

Import ExpenseForm FormUtils.

Variable ToNumber_coerce : value → completion number.
Variable validateExpenseItem : value → value → value.
Variable validatePayoutMethod : value → value.

#[local] Abbreviation validate :=
  (validate ToNumber_coerce validateExpenseItem validatePayoutMethod).

Lemma requireFields_lookup (obj : value) (fields : list string) (k : string) :
  requireFields obj fields !! k =
    if decide (k ∈ fields)
    then (if missing_or_empty (Lodash.get obj k) then Some requiredFieldError else None)
    else None.
Proof.
  unfold requireFields.
  assert (∀ acc : gmap string value,
            foldl (λ errors field,
                     if missing_or_empty (Lodash.get obj field)
                     then <[field := requiredFieldError]> errors
                     else errors) acc fields !! k
            = if decide (k ∈ fields)
              then (if missing_or_empty (Lodash.get obj k)
                    then Some requiredFieldError else acc !! k)
              else acc !! k) as Hgen.
  { induction fields as [|f fields IH]; intros acc; cbn [foldl].
    - by rewrite decide_False by apply not_elem_of_nil.
    - rewrite IH. destruct (decide (k = f)) as [Heq|Hne].
      + subst. rewrite (decide_True (P := _ ∈ _ :: fields)) by left.
        destruct (missing_or_empty (Lodash.get obj _)).
        * rewrite lookup_insert_eq. by case_decide.
        * by case_decide.
      + assert (∀ X (a b : X), (if decide (k ∈ f :: fields) then a else b)
                               = if decide (k ∈ fields) then a else b) as ->.
        { intros X a b. destruct (decide (k ∈ fields)) as [Hin|Hout].
          - rewrite decide_True; [done|by right].
          - rewrite decide_False; [done|]. by intros [?|?]%elem_of_cons. }
        destruct (missing_or_empty (Lodash.get obj f)); [|done].
        by rewrite lookup_insert_ne. }
  rewrite Hgen, lookup_empty. by destruct (missing_or_empty _).
Qed.

(** [validate] on a draft whose [items] is an array. *)
Lemma validate_array_items (expense : value) (its : list value) :
  JS.get expense "items" = Normal (VArray its) →
  validate expense =
    Normal
      (let errors :=
         requireFields expense ["description"; "payee"; "payoutMethod"; "currency"] in
       let errors :=
         if (0 <? Z.of_nat (length its))%Z then
           let itemsErrors := map (validateExpenseItem expense) its in
           if existsb (λ errors, negb (Lodash.isEmpty errors)) itemsErrors
           then <["items" := VArray itemsErrors]> errors else errors
         else errors in
       let payoutMethod := Lodash.get expense "payoutMethod" in
       if JS.truthy payoutMethod then
         if negb (Lodash.isEmpty (validatePayoutMethod payoutMethod))
         then <["payoutMethod" := validatePayoutMethod payoutMethod]> errors
         else errors
       else errors).
Proof.
  intros Hits.
  assert (JS.nullish expense = false) as Hobj by by destruct expense.
  unfold ExpenseForm.validate. rewrite Hits, !bind_Normal. simpl JS.get.
  rewrite bind_Normal. unfold JS.gt. simpl JS.to_number. rewrite !bind_Normal.
  rewrite (get_not_nullish expense "payoutMethod") by done.
  destruct (0 <? Z.of_nat (length its))%Z; cbv iota.
  - simpl JS.array_map. by rewrite mapM_pure, !bind_Normal.
  - by rewrite !bind_Normal.
Qed.

(** C4. For every draft expense whose description, payee, payout method or
    currency is missing or empty, [validate] returns an error mapping that
    holds the required-field error under that field's name; in particular
    an empty description always yields the required-field error for
    [description]. *)
Theorem required_field_error_reported :
  (∀ expense its field,
     JS.get expense "items" = Normal (VArray its) →
     field ∈ ["description"; "payee"; "payoutMethod"; "currency"] →
     missing_or_empty (Lodash.get expense field) = true →
     ∃ errors,
       validate expense = Normal errors
       ∧ errors !! field = Some requiredFieldError)
  ∧ (∀ expense its,
       JS.get expense "items" = Normal (VArray its) →
       JS.get expense "description" = Normal (VString "") →
       ∃ errors,
         validate expense = Normal errors
         ∧ errors !! "description" = Some requiredFieldError).
Proof.
  assert (∀ expense its field,
     JS.get expense "items" = Normal (VArray its) →
     field ∈ ["description"; "payee"; "payoutMethod"; "currency"] →
     missing_or_empty (Lodash.get expense field) = true →
     ∃ errors,
       validate expense = Normal errors
       ∧ errors !! field = Some requiredFieldError) as Hgen.
  { intros expense its field Hits Hfield Hmissing.
    eexists. split; [by apply validate_array_items|]. simpl.
    assert (requireFields expense ["description"; "payee"; "payoutMethod"; "currency"]
              !! field = Some requiredFieldError) as Hreq.
    { by rewrite requireFields_lookup, decide_True, Hmissing. }
    assert (field ≠ "items") as Hne.
    { intros ->. set_solver. }
    assert ((if (0 <? Z.of_nat (length its))%Z then
               if existsb (λ errors, negb (Lodash.isEmpty errors))
                    (map (validateExpenseItem expense) its)
               then <["items" := VArray (map (validateExpenseItem expense) its)]>
                      (requireFields expense
                         ["description"; "payee"; "payoutMethod"; "currency"])
               else requireFields expense
                      ["description"; "payee"; "payoutMethod"; "currency"]
             else requireFields expense
                    ["description"; "payee"; "payoutMethod"; "currency"]) !! field
            = Some requiredFieldError) as Hitems.
    { destruct (0 <? _)%Z; [|done]. destruct (existsb _ _); [|done].
      by rewrite lookup_insert_ne. }
    destruct (JS.truthy (Lodash.get expense "payoutMethod")) eqn:Hpm; [|done].
    destruct (negb _); [|done].
    rewrite lookup_insert_ne; [done|]. intros <-.
    destruct (Lodash.get expense "payoutMethod") as [| | | | s | |];
      simpl in Hmissing, Hpm; try done.
    by rewrite Hmissing in Hpm. }
  split; [exact Hgen|].
  intros expense its Hits Hdesc. eapply Hgen; [done|set_solver|].
  unfold Lodash.get. by rewrite Hdesc.
Qed.

(** *** The store-level run of [validate] *)

#[local] Abbreviation validate_in :=
  (validate_in ToNumber_coerce validateExpenseItem validatePayoutMethod).

(** A run of [validate_in] allocates the error mapping at the next free
    reference and leaves there what [validate] computes from the draft. *)
Lemma validate_in_run (h : gmap nat value) (expense : nat) (draft : value) :
  h !! expense = Some draft →
  validate_in expense h =
    match validate draft with
    | Normal errors => (Normal (fresh (dom h)), <[fresh (dom h) := VObject errors]> h)
    | Throw e =>
        (Throw e,
         <[fresh (dom h) :=
             VObject (requireFields draft
                        ["description"; "payee"; "payoutMethod"; "currency"])]> h)
    end.
Proof.
  intros Hdraft.
  set (l := fresh (dom h)).
  assert (h !! l = None) as Hfresh.
  { apply not_elem_of_dom, is_fresh. }
  assert (l ≠ expense) as Hne by congruence.
  set (errors0 := requireFields draft ["description"; "payee"; "payoutMethod"; "currency"]).
  assert (∀ m : gmap string value,
            deref expense (<[l := VObject m]> h) = (Normal draft, <[l := VObject m]> h))
    as Hderef.
  { intros m. unfold deref. by rewrite lookup_insert_ne, Hdraft. }
  assert (∀ (m : gmap string value) k v,
            assign l k v (<[l := VObject m]> h)
            = (Normal (), <[l := VObject (<[k := v]> m)]> h)) as Hassign.
  { intros m k v. unfold assign. by rewrite lookup_insert_eq, insert_insert_eq. }
  unfold ExpenseForm.validate_in, ExpenseForm.validate. fold errors0.
  erewrite run_bind_Normal; last first.
  { unfold requireFields_in. erewrite run_bind_Normal; last first.
    - unfold deref. by rewrite Hdraft.
    - unfold alloc. fold l. fold errors0. reflexivity. }
  erewrite run_bind_Normal by apply Hderef.
  rewrite run_bind_lift.
  destruct (JS.get draft "items") as [items|e] eqn:Hitems; [|done].
  rewrite bind_Normal, run_bind_lift.
  destruct (JS.get items "length") as [len|e]; [|done]. rewrite bind_Normal.
  rewrite run_bind_lift.
  destruct (JS.gt ToNumber_coerce len 0) as [nonempty|e]; [|done]. rewrite bind_Normal.
  assert (JS.get draft "payoutMethod" = Normal (Lodash.get draft "payoutMethod")) as Hpm.
  { apply get_not_nullish. by destruct draft. }
  rewrite Hpm.
  assert (∀ m : gmap string value,
            (e ← deref expense;
             payoutMethod ← lift (JS.get e "payoutMethod");
             _ ← (if JS.truthy payoutMethod then
                    let payoutMethodErrors := validatePayoutMethod payoutMethod in
                    if negb (Lodash.isEmpty payoutMethodErrors)
                    then assign l "payoutMethod" payoutMethodErrors
                    else mret ()
                  else mret ());
             mret l) (<[l := VObject m]> h)
            = (Normal l,
               <[l := VObject
                   (let payoutMethod := Lodash.get draft "payoutMethod" in
                    if JS.truthy payoutMethod then
                      if negb (Lodash.isEmpty (validatePayoutMethod payoutMethod))
                      then <["payoutMethod" := validatePayoutMethod payoutMethod]> m
                      else m
                    else m)]> h)) as Htail.
  { intros m. erewrite run_bind_Normal by apply Hderef.
    rewrite run_bind_lift, Hpm. cbv zeta.
    destruct (JS.truthy (Lodash.get draft "payoutMethod")); [|done].
    destruct (negb (Lodash.isEmpty (validatePayoutMethod _))); [|done].
    erewrite run_bind_Normal by apply Hassign. done. }
  destruct nonempty; cbv iota.
  - rewrite bind_Normal.
    destruct (JS.array_map (λ item, Normal (validateExpenseItem draft item)) items)
      as [itemsErrors|e] eqn:Hmap.
    + rewrite (run_bind_Normal _ _ _
                 (<[l := VObject
                      (if existsb (λ errors, negb (Lodash.isEmpty errors)) itemsErrors
                       then <["items" := VArray itemsErrors]> errors0
                       else errors0)]> h) ()); last first.
      { erewrite run_bind_Normal by apply Hderef.
        rewrite run_bind_lift, Hitems, run_bind_lift, Hmap. cbv zeta.
        destruct (existsb _ itemsErrors).
        - apply Hassign.
        - reflexivity. }
      rewrite !bind_Normal. apply Htail.
    + erewrite run_bind_Throw; [done|].
      erewrite run_bind_Normal by apply Hderef.
      by rewrite run_bind_lift, Hitems, run_bind_lift, Hmap.
  - erewrite run_bind_Normal by reflexivity. rewrite !bind_Normal. apply Htail.
Qed.

(** C9. [validate] is pure and deterministic.  Two runs on references to
    identical drafts, in whatever stores, with the item and payout-method
    validators fixed as pure functions, complete alike: with the same
    exception, or with references to identical error mappings, which are
    the one the function [validate] computes from the draft alone.  And a
    run has no side effect: every object of the store it starts in is
    unchanged in the store it ends in. *)
Theorem validate_pure_deterministic
    (h1 h2 : gmap nat value) (expense1 expense2 : nat) (draft : value) :
  h1 !! expense1 = Some draft →
  h2 !! expense2 = Some draft →
  observe (validate_in expense1 h1) = observe (validate_in expense2 h2)
  ∧ observe (validate_in expense1 h1) =
      match validate draft with
      | Normal errors => Normal (VObject errors)
      | Throw e => Throw e
      end
  ∧ ∀ l v, h1 !! l = Some v → (validate_in expense1 h1).2 !! l = Some v.
Proof.
  intros H1 H2.
  assert (∀ h expense, h !! expense = Some draft →
            observe (validate_in expense h) =
              match validate draft with
              | Normal errors => Normal (VObject errors)
              | Throw e => Throw e
              end) as Hobs.
  { intros h expense Hd. rewrite (validate_in_run h expense draft Hd).
    destruct (validate draft); simpl; [|done]. by rewrite lookup_insert_eq. }
  split_and!.
  - by rewrite !Hobs.
  - by apply Hobs.
  - intros l v Hl. rewrite (validate_in_run h1 expense1 draft H1).
    assert (l ≠ fresh (dom h1)) as Hne.
    { intros ->. apply (is_fresh (dom h1)), elem_of_dom. by exists v. }
    destruct (validate draft); simpl; by rewrite lookup_insert_ne.
Qed.

(** *** The submit handler *)

Variable onSubmit_result : value → completion value.

#[local] Abbreviation handleSubmit :=
  (handleSubmit ToNumber_coerce validateExpenseItem validatePayoutMethod onSubmit_result).
#[local] Abbreviation afterSubmits :=
  (afterSubmits ToNumber_coerce validateExpenseItem validatePayoutMethod onSubmit_result).
#[local] Abbreviation validateProp :=
  (validateProp ToNumber_coerce validateExpenseItem validatePayoutMethod).

Lemma isEmpty_object (m : gmap string value) :
  Lodash.isEmpty (VObject m) = true ↔ m = ∅.
Proof. simpl. apply bool_decide_eq_true. Qed.

Lemma handleSubmit_invalid (values : value) (st : form) (errors : gmap string value) :
  validate values = Normal errors → errors ≠ ∅ →
  handleSubmit values st = (Normal VUndefined, Form true errors (onSubmitCalls st)).
Proof.
  intros Hv Hne. unfold ExpenseForm.handleSubmit.
  rewrite run_bind_lift, Hv.
  assert (Lodash.isEmpty (VObject errors) = false) as ->.
  { apply not_true_iff_false. by rewrite isEmpty_object. }
  reflexivity.
Qed.

Lemma handleSubmit_valid (values : value) (st : form) :
  validate values = Normal ∅ →
  handleSubmit values st =
    (onSubmit_result values,
     Form (hasValidate st) (formikErrors st) (values :: onSubmitCalls st)).
Proof.
  intros Hv. unfold ExpenseForm.handleSubmit.
  rewrite run_bind_lift, Hv.
  assert (Lodash.isEmpty (VObject ∅) = true) as -> by by apply isEmpty_object.
  reflexivity.
Qed.

(** No submit attempt switches validation on every change off again. *)
Lemma hasValidate_kept (values : value) (st : form) :
  hasValidate st = true → hasValidate (handleSubmit values st).2 = true.
Proof.
  intros Hst. unfold ExpenseForm.handleSubmit. rewrite run_bind_lift.
  destruct (validate values) as [errors|e]; [|done].
  by destruct (negb (Lodash.isEmpty (VObject errors))).
Qed.

Lemma hasValidate_kept_afterSubmits (attempts : list value) (st : form) :
  hasValidate st = true → hasValidate (afterSubmits attempts st) = true.
Proof.
  revert st. induction attempts as [|values attempts IH]; intros st Hst; [done|].
  apply IH. by apply hasValidate_kept.
Qed.

(** C7. On a submit attempt, when [validate(values)] returns a non-empty
    error mapping the [onSubmit] callback is not called, the errors are set
    on the form, and validation changes from on-submit-only (Formik is
    given no [validate], as it is on a form mounted with the default props
    and as long as [hasValidate] is false) to on-every-change (Formik is
    given [validate]) for good: whatever attempts follow, Formik keeps being
    given [validate].  When the mapping is empty, [onSubmit] is called with
    the draft values and the validation mode is as it was. *)
Theorem submit_attempt_guarded (values : value) (st : form) :
  (∀ errors,
     validate values = Normal errors → errors ≠ ∅ →
     let st' := (handleSubmit values st).2 in
     onSubmitCalls st' = onSubmitCalls st
     ∧ formikErrors st' = errors
     ∧ hasValidate st' = true
     ∧ (hasValidate st = false → validateProp st = None)
     ∧ validateProp st' = Some validate
     ∧ ∀ later,
         hasValidate (afterSubmits later st') = true
         ∧ validateProp (afterSubmits later st') = Some validate)
  ∧ (validate values = Normal ∅ →
     handleSubmit values st =
       (onSubmit_result values,
        Form (hasValidate st) (formikErrors st) (values :: onSubmitCalls st)))
  ∧ validateProp (mountedForm defaultValidateOnChange) = None
  ∧ (∀ validateOnChange,
       validateProp (mountedForm validateOnChange) =
         if validateOnChange then Some validate else None).
Proof.
  split_and!.
  - intros errors Hv Hne. simpl. rewrite (handleSubmit_invalid _ _ _ Hv Hne). simpl.
    split_and!; try done.
    + intros Hoff. unfold ExpenseForm.validateProp. by rewrite Hoff.
    + intros later.
      assert (hasValidate (afterSubmits later (Form true errors (onSubmitCalls st))) = true)
        as Hlater by by apply hasValidate_kept_afterSubmits.
      split; [done|]. unfold ExpenseForm.validateProp. by rewrite Hlater.
  - apply handleSubmit_valid.
  - reflexivity.
  - by intros [].
Qed.

End Validate.

Section FormBody.

Import ExpenseForm.

Variable ToNumber_coerce : value → completion number.

#[local] Abbreviation stepTwoCompleted := (stepTwoCompleted ToNumber_coerce).
#[local] Abbreviation submitDisabled := (submitDisabled ToNumber_coerce).

(** The second step on form values that are an object whose [items] is an
    array. *)
Lemma stepTwoCompleted_array_items (m : gmap string value) (its : list value) :
  m !! "items" = Some (VArray its) →
  stepTwoCompleted (VObject m) =
    Normal (let type := default VUndefined (m !! "type") in
            let description := default VUndefined (m !! "description") in
            if JS.truthy type then
              if JS.truthy description then
                if (0 <? Z.of_nat (length its))%Z
                then default VUndefined (m !! "payoutMethod")
                else VBool false
              else description
            else type).
Proof.
  intros Hits.
  unfold ExpenseForm.stepTwoCompleted, stepOneCompleted, hasBaseFormFieldsCompleted.
  rewrite !get_object, !bind_Normal. cbv zeta.
  destruct (JS.truthy (default VUndefined (m !! "type"))) eqn:Htype.
  - rewrite bind_Normal.
    destruct (JS.truthy (default VUndefined (m !! "description"))) eqn:Hdesc.
    + rewrite Hits. simpl.
      by destruct (0 <? Z.of_nat (length its))%Z.
    + rewrite bind_Normal. by rewrite Hdesc.
  - rewrite !bind_Normal. rewrite Htype. rewrite bind_Normal. by rewrite Htype.
Qed.

(** C6. For every form state with [items = []] the submit control is
    disabled, also when [payoutMethod] is set: [stepTwoCompleted] is falsy.
    Submission is enabled only when [type], [description], at least one
    item and [payoutMethod] are all set and the form is valid (and then it
    is). *)
Theorem submit_disabled_without_items :
  (∀ (fk : formik) (m : gmap string value),
     values fk = VObject m →
     m !! "items" = Some (VArray []) →
     ∃ two,
       stepTwoCompleted (values fk) = Normal two
       ∧ JS.truthy two = false
       ∧ submitDisabled fk = Normal true)
  ∧ (∀ (fk : formik) (m : gmap string value) (its : list value),
       values fk = VObject m →
       m !! "items" = Some (VArray its) →
       (submitDisabled fk = Normal false ↔
        JS.truthy (default VUndefined (m !! "type")) = true
        ∧ JS.truthy (default VUndefined (m !! "description")) = true
        ∧ its ≠ []
        ∧ JS.truthy (default VUndefined (m !! "payoutMethod")) = true
        ∧ isValid fk = true)).
Proof.
  split.
  - intros fk m Hvalues Hits. rewrite Hvalues.
    assert (∃ two, stepTwoCompleted (VObject m) = Normal two ∧ JS.truthy two = false)
      as (two & Htwo & Hfalsy).
    { rewrite (stepTwoCompleted_array_items m [] Hits). eexists. split; [done|].
      simpl.
      destruct (JS.truthy (default VUndefined (m !! "type"))) eqn:Htype; [|done].
      by destruct (JS.truthy (default VUndefined (m !! "description"))) eqn:Hdesc. }
    exists two. split_and!; [done|done|].
    unfold ExpenseForm.submitDisabled. by rewrite Hvalues, Htwo, bind_Normal, Hfalsy.
  - intros fk m its Hvalues Hits.
    unfold ExpenseForm.submitDisabled.
    rewrite Hvalues, (stepTwoCompleted_array_items m its Hits), bind_Normal. cbv zeta.
    assert ((0 <? Z.of_nat (length its))%Z = true ↔ its ≠ []) as Hlen.
    { destruct its; simpl; [by split|]. split; [done|]. intros _. by apply Z.ltb_lt. }
    destruct (JS.truthy (default VUndefined (m !! "type"))) eqn:Htype;
      [|rewrite Htype; simpl; naive_solver].
    destruct (JS.truthy (default VUndefined (m !! "description"))) eqn:Hdesc;
      [|rewrite Hdesc; simpl; naive_solver].
    destruct (0 <? Z.of_nat (length its))%Z eqn:Hpos.
    + destruct (JS.truthy (default VUndefined (m !! "payoutMethod")));
        destruct (isValid fk); simpl; naive_solver.
    + simpl. split; [done|]. intros (_ & _ & Hne & _). apply Hlen in Hne. done.
Qed.


End FormBody.

Section MemberModal.

Import EditMemberModal.

(** The options [handleSubmitForm] passes to the mutation. *)
Lemma handleSubmitForm_run
    (member values : gmap string value) (collective : value)
    (submitted : value) (editMemberAccount_result : value → completion value) :
  let options :=
    VObject {[ "variables" := VObject
      (<["memberAccount" :=
           VObject {[ "slug" := Lodash.get (default VUndefined (member !! "member")) "slug" ]}]>
       (<["account" := VObject {[ "slug" := Lodash.get collective "slug" ]}]>
        (<["description" := default VUndefined (values !! "description")]>
         (<["role" := default VUndefined (values !! "role")]>
          {[ "since" := default VUndefined (values !! "since") ]})))) ]} in
  let awaited := [EditMemberAccount options false; SubmitMemberForm false] in
  handleSubmitForm (VObject member) collective (Some (Normal submitted))
      editMemberAccount_result (VObject values) initial =
    match editMemberAccount_result options with
    | Throw e => (Throw e, Modal false awaited)
    | Normal result =>
        match data ← JS.get result "data"; JS.get data "editMemberAccount" with
        | Normal _ => (Normal VUndefined, Modal true awaited)
        | Throw e => (Throw e, Modal false awaited)
        end
    end.
Proof.
  intros options awaited. unfold handleSubmitForm.
  erewrite run_bind_Normal by reflexivity.
  do 4 (rewrite run_bind_lift, get_object; cbv iota beta).
  destruct (editMemberAccount_result options) as [result|e] eqn:Hres.
  - erewrite run_bind_Normal; last first.
    { unfold editMemberAccount. fold options. by rewrite Hres. }
    simpl submitting. simpl calls. fold awaited.
    rewrite run_bind_lift.
    destruct (JS.get result "data") as [data|e]; [|done].
    rewrite bind_Normal, run_bind_lift.
    by destruct (JS.get data "editMemberAccount").
  - erewrite run_bind_Throw; [done|].
    unfold editMemberAccount. fold options. by rewrite Hres.
Qed.

(** A rejected mutation on the sample edit: issued with [submitting] still
    [false], and the flag is never set. *)
Example handleSubmitForm_rejected :
  handleSubmitForm Samples.member Samples.collectiveWithoutTransferwise
      (Some (Normal VUndefined)) (λ _, Throw Samples.networkError)
      Samples.memberValues initial =
    (Throw Samples.networkError,
     Modal false [EditMemberAccount Samples.editOptions false; SubmitMemberForm false]).
Proof. vm_compute. reflexivity. Qed.

(** C5, on [handleSubmitForm] of [EditMemberModal.js].  With the sub-form
    bound, the handler calls it and issues the mutation while [submitting]
    is still [false]; when the mutation is rejected the rejection reaches
    the caller and [submitting] has never been set; only when the mutation
    has resolved is [submitting] set to [true].  So the flag is not set for
    the duration of the mutation. *)
Theorem handleSubmitForm_sets_flag_after_mutation
    (member values : gmap string value) (collective submitted : value)
    (editMemberAccount_result : value → completion value) :
  let '(outcome, st) :=
    handleSubmitForm (VObject member) collective (Some (Normal submitted))
      editMemberAccount_result (VObject values) initial in
  ∃ options,
    calls st = [EditMemberAccount options false; SubmitMemberForm false]
    ∧ match editMemberAccount_result options with
      | Throw e => outcome = Throw e ∧ submitting st = false
      | Normal result =>
          match data ← JS.get result "data"; JS.get data "editMemberAccount" with
          | Normal _ => outcome = Normal VUndefined ∧ submitting st = true
          | Throw e => outcome = Throw e ∧ submitting st = false
          end
      end.
Proof.
  rewrite handleSubmitForm_run. cbv zeta.
  match goal with
  | |- context [editMemberAccount_result ?o] => set (options := o)
  end.
  destruct (editMemberAccount_result options) as [result|e] eqn:Hres.
  - destruct (data ← JS.get result "data"; JS.get data "editMemberAccount") eqn:Hdata;
      exists options; by rewrite Hres, Hdata.
  - exists options. by rewrite Hres.
Qed.

(** The confirm handler of the other version, had it a [setSubmitting] in
    scope: the flag is [true] while [continueHandler] is awaited, and a
    failure resets it and is thrown again. *)
Lemma onClickContinue_with_setter (continueHandler_result : completion value) :
  onClickContinue (Some setSubmitting) continueHandler_result initial =
    match continueHandler_result with
    | Normal _ => (Normal VUndefined, Modal true [ContinueHandler true])
    | Throw e => (Throw e, Modal false [ContinueHandler true])
    end.
Proof. by destruct continueHandler_result. Qed.

(** That version declares no [setSubmitting]: as it stands the handler
    fails before [continueHandler] is called. *)
Lemma onClickContinue_undeclared (continueHandler_result : completion value) :
  onClickContinue None continueHandler_result initial = (Throw ReferenceError, initial).
Proof. reflexivity. Qed.

End MemberModal.

(** * The theorems at sample inputs *)

Section Witnesses.

Import ExpenseForm Samples.

Lemma invoice_items_have_no_url_witness :
  submittable invoice = true
  ∧ JS.get invoice "type" = Normal (VString expenseTypes.INVOICE)
  ∧ ∃ payload its items',
      prepareExpenseForSubmit invoice = Normal (VObject payload)
      ∧ JS.get invoice "items" = Normal (VArray its)
      ∧ payload !! "items" = Some (VArray items')
      ∧ Forall2 (λ _ item', ∃ o, item' = VObject o ∧ o !! "url" = None) its items'.
Proof.
  split; [reflexivity|]. split; [reflexivity|].
  apply (invoice_items_have_no_url invoice); reflexivity.
Defined.

Lemma item_id_follows_isNew_witness :
  submittable invoice = true
  ∧ ∃ payload its items',
      prepareExpenseForSubmit invoice = Normal (VObject payload)
      ∧ JS.get invoice "items" = Normal (VArray its)
      ∧ payload !! "items" = Some (VArray items')
      ∧ Forall2 (λ item item',
          ∀ m, item = VObject m →
            ∃ o, item' = VObject o
              ∧ o !! "id" = (if JS.truthy (Lodash.get item "__isNew")
                             then None else m !! "id")
              ∧ (is_Some (m !! "id") →
                 (o !! "id" = None ↔ JS.truthy (Lodash.get item "__isNew") = true))
              ∧ o !! "description" = m !! "description"
              ∧ o !! "incurredAt" = m !! "incurredAt"
              ∧ o !! "amount" = m !! "amount") its items'.
Proof.
  split; [reflexivity|].
  apply (item_id_follows_isNew invoice); reflexivity.
Defined.

Lemma payee_reduced_to_identifier_witness :
  (submittable invoice = true
   ∧ JS.get invoice "payee" = Normal (VObject {[ "id" := VString "abc" ]})
   ∧ ∃ payload,
       prepareExpenseForSubmit invoice = Normal (VObject payload)
       ∧ payload !! "payee" = Some (VObject {[ "id" := VString "abc" ]}))
  ∧ (submittable legacyPayeeInvoice = true
     ∧ JS.get legacyPayeeInvoice "payee" =
         Normal (VObject {[ "id" := VNumber (Int 42); "legacyId" := VNumber (Int 42) ]})
     ∧ ∃ payload,
         prepareExpenseForSubmit legacyPayeeInvoice = Normal (VObject payload)
         ∧ payload !! "payee" = Some (VObject {[ "legacyId" := VNumber (Int 42) ]})).
Proof.
  split.
  - split; [reflexivity|]. split; [reflexivity|].
    apply (proj1 (proj2 payee_reduced_to_identifier) invoice); reflexivity.
  - split; [reflexivity|]. split; [reflexivity|].
    apply (proj2 (proj2 payee_reduced_to_identifier) legacyPayeeInvoice); reflexivity.
Defined.

Lemma unset_payee_passed_through_witness :
  submittable noPayeeInvoice = true
  ∧ JS.get noPayeeInvoice "payee" = Normal VNull
  ∧ JS.truthy VNull = false
  ∧ ∃ payload,
      prepareExpenseForSubmit noPayeeInvoice = Normal (VObject payload)
      ∧ payload !! "payee" = Some VNull
      ∧ ∀ o, VNull ≠ VObject o.
Proof.
  split; [reflexivity|]. split; [reflexivity|]. split; [reflexivity|].
  apply (unset_payee_passed_through noPayeeInvoice VNull); reflexivity.
Defined.

Lemma required_field_error_reported_witness :
  JS.get untitledInvoice "items" = Normal (VArray [newItem; savedItem])
  ∧ JS.get untitledInvoice "description" = Normal (VString "")
  ∧ ∃ errors,
      validate coerceNaN acceptItem acceptPayoutMethod untitledInvoice = Normal errors
      ∧ errors !! "description" = Some FormUtils.requiredFieldError.
Proof.
  split; [reflexivity|]. split; [reflexivity|].
  apply (proj2 (required_field_error_reported coerceNaN acceptItem acceptPayoutMethod)
           untitledInvoice [newItem; savedItem]); reflexivity.
Defined.

Lemma validate_pure_deterministic_witness :
  ({[ 0 := invoice ]} : gmap nat value) !! 0 = Some invoice
  ∧ ({[ 3 := invoice; 0 := VNull ]} : gmap nat value) !! 3 = Some invoice
  ∧ observe (validate_in coerceNaN acceptItem acceptPayoutMethod 0 {[ 0 := invoice ]})
    = observe (validate_in coerceNaN acceptItem acceptPayoutMethod 3
                 {[ 3 := invoice; 0 := VNull ]})
  ∧ observe (validate_in coerceNaN acceptItem acceptPayoutMethod 0 {[ 0 := invoice ]})
    = match validate coerceNaN acceptItem acceptPayoutMethod invoice with
      | Normal errors => Normal (VObject errors)
      | Throw e => Throw e
      end
  ∧ ∀ l v, ({[ 0 := invoice ]} : gmap nat value) !! l = Some v →
           (validate_in coerceNaN acceptItem acceptPayoutMethod 0 {[ 0 := invoice ]}).2 !! l
           = Some v.
Proof.
  split; [reflexivity|]. split; [reflexivity|].
  apply (validate_pure_deterministic coerceNaN acceptItem acceptPayoutMethod
           {[ 0 := invoice ]} {[ 3 := invoice; 0 := VNull ]} 0 3 invoice); reflexivity.
Defined.

Lemma submit_attempt_guarded_witness :
  (validate coerceNaN acceptItem acceptPayoutMethod untitledInvoice
     = Normal {[ "description" := FormUtils.requiredFieldError ]}
   ∧ ({[ "description" := FormUtils.requiredFieldError ]} : gmap string value) ≠ ∅
   ∧ let st' := (handleSubmit coerceNaN acceptItem acceptPayoutMethod resolveSubmit
                   untitledInvoice emptyForm).2 in
     onSubmitCalls st' = onSubmitCalls emptyForm
     ∧ formikErrors st' = {[ "description" := FormUtils.requiredFieldError ]}
     ∧ hasValidate st' = true
     ∧ (hasValidate emptyForm = false →
        validateProp coerceNaN acceptItem acceptPayoutMethod emptyForm = None)
     ∧ validateProp coerceNaN acceptItem acceptPayoutMethod st'
       = Some (validate coerceNaN acceptItem acceptPayoutMethod)
     ∧ ∀ later,
         hasValidate (afterSubmits coerceNaN acceptItem acceptPayoutMethod resolveSubmit
                        later st') = true
         ∧ validateProp coerceNaN acceptItem acceptPayoutMethod
             (afterSubmits coerceNaN acceptItem acceptPayoutMethod resolveSubmit later st')
           = Some (validate coerceNaN acceptItem acceptPayoutMethod))
  ∧ (hasValidate emptyForm = false
     ∧ validateProp coerceNaN acceptItem acceptPayoutMethod emptyForm = None)
  ∧ (validate coerceNaN acceptItem acceptPayoutMethod invoice = Normal ∅
     ∧ handleSubmit coerceNaN acceptItem acceptPayoutMethod resolveSubmit invoice emptyForm
       = (resolveSubmit invoice,
          Form (hasValidate emptyForm) (formikErrors emptyForm)
               (invoice :: onSubmitCalls emptyForm))).
Proof.
  assert (validate coerceNaN acceptItem acceptPayoutMethod untitledInvoice
          = Normal {[ "description" := FormUtils.requiredFieldError ]}) as Hinvalid
    by reflexivity.
  assert (({[ "description" := FormUtils.requiredFieldError ]} : gmap string value) ≠ ∅)
    as Hne by apply insert_non_empty.
  split_and!.
  - exact Hinvalid.
  - exact Hne.
  - exact (proj1 (submit_attempt_guarded coerceNaN acceptItem acceptPayoutMethod
                    resolveSubmit untitledInvoice emptyForm)
             {[ "description" := FormUtils.requiredFieldError ]} Hinvalid Hne).
  - reflexivity.
  - exact (proj1 (proj2 (proj2 (proj2
             (proj1 (submit_attempt_guarded coerceNaN acceptItem acceptPayoutMethod
                       resolveSubmit untitledInvoice emptyForm)
                {[ "description" := FormUtils.requiredFieldError ]} Hinvalid Hne))))
             eq_refl).
  - reflexivity.
  - apply (proj1 (proj2 (submit_attempt_guarded coerceNaN acceptItem acceptPayoutMethod
                           resolveSubmit invoice emptyForm))); reflexivity.
Defined.

Lemma submit_disabled_without_items_witness :
  let fk := Formik noItemsInvoice true true in
  let m := draftFields (VString "Hosting") (VObject {[ "id" := VString "abc" ]}) [] in
  values fk = VObject m
  ∧ m !! "items" = Some (VArray [])
  ∧ ∃ two,
      stepTwoCompleted coerceNaN (values fk) = Normal two
      ∧ JS.truthy two = false
      ∧ submitDisabled coerceNaN fk = Normal true.
Proof.
  intros fk m. split; [reflexivity|]. split; [reflexivity|].
  apply (proj1 (submit_disabled_without_items coerceNaN) fk m); reflexivity.
Defined.



End Witnesses.

(** * Further properties of the expense form *)

Section Payload.

Import ExpenseForm.

Lemma get_throws (v : value) (k : string) (e : exn) :
  JS.get v k = Throw e → e = TypeError.
Proof. destruct v; simpl; congruence. Qed.

Lemma mapM_throws {A B} (f : A → completion B) (l : list A) (e : exn) :
  mapM f l = Throw e → ∃ x, x ∈ l ∧ f x = Throw e.
Proof.
  induction l as [|x l IH]; simpl; [done|].
  destruct (f x) as [y|e'] eqn:Hx; simpl.
  - destruct (mapM f l) as [k|e'] eqn:Hl; simpl; [done|].
    intros [= ->]. destruct IH as (x' & Hin & Hx'); [done|].
    exists x'. split; [by right|done].
  - intros [= ->]. exists x. split; [by left|done].
Qed.

Lemma prepareItem_throws (expenseData item : value) (e : exn) :
  prepareItem expenseData item = Throw e → e = TypeError.
Proof.
  unfold prepareItem.
  destruct (JS.get item "__isNew") as [isNew|e'] eqn:Hnew; simpl.
  - destruct (JS.get expenseData "type") as [type|e'] eqn:Htype; simpl; [done|].
    intros [= <-]. by eapply get_throws.
  - intros [= <-]. by eapply get_throws.
Qed.

(** The whole payload of a submittable draft. *)
Lemma prepareExpenseForSubmit_payload (m : gmap string value) :
  submittable (VObject m) = true →
  ∃ its items',
    m !! "items" = Some (VArray its)
    ∧ Forall2 (λ item item', prepareItem (VObject m) item = Normal item') its items'
    ∧ prepareExpenseForSubmit (VObject m) =
        Normal (VObject
          (<["items" := VArray items']>
           (<["attachedFiles" :=
                match m !! "attachedFiles" with
                | Some (VArray files) =>
                    VArray (map (λ file, VObject (Lodash.pick file ["id"; "url"])) files)
                | _ => VUndefined
                end]>
            (<["payoutMethod" :=
                 VObject (Lodash.pick (default VUndefined (m !! "payoutMethod"))
                            ["id"; "name"; "data"; "isSaved"; "type"])]>
             (<["payee" :=
                  let payee := default VUndefined (m !! "payee") in
                  if JS.truthy payee
                  then VObject {[ (if JS.typeof_string (Lodash.get payee "id")
                                   then "id" else "legacyId") := Lodash.get payee "id" ]}
                  else payee]>
              (Lodash.pick (VObject m)
                 ["id"; "description"; "type"; "privateMessage"; "invoiceInfo";
                  "tags"])))))).
Proof.
  simpl submittable.
  destruct (m !! "items") as [[| | | | |its|]|] eqn:Hits; try done.
  intros [Hitems Hfiles]%andb_prop.
  assert (∃ items', mapM (prepareItem (VObject m)) its = Normal items') as [items' Hmap].
  { apply mapM_total. rewrite forallb_forall in Hitems.
    apply Forall_forall. intros it Hin. apply list_elem_of_In, Hitems in Hin.
    destruct (prepareItem_total (VObject m) it) as [o Ho]; [done| |by eexists].
    by destruct (JS.nullish it). }
  exists its, items'. split; [done|]. split; [by apply mapM_Normal|].
  unfold prepareExpenseForSubmit.
  rewrite !get_object, !bind_Normal. rewrite Hits. simpl default.
  set (payee := default VUndefined (m !! "payee")).
  assert (∃ r, JS.get_opt payee "id" = Normal r ∧
               (JS.truthy payee = true → r = Lodash.get payee "id")) as (r & -> & Hr).
  { unfold JS.get_opt. destruct (JS.nullish payee) eqn:Hn.
    - eexists; split; [done|]. intros ?%truthy_not_nullish. congruence.
    - rewrite get_not_nullish by done. by eexists. }
  rewrite bind_Normal.
  assert ((if JS.nullish (default VUndefined (m !! "attachedFiles"))
           then Normal VUndefined
           else files ← JS.array_map
                  (λ file, Normal (VObject (Lodash.pick file ["id"; "url"])))
                  (default VUndefined (m !! "attachedFiles"));
                Normal (VArray files))
          = Normal match m !! "attachedFiles" with
                   | Some (VArray files) =>
                       VArray (map (λ file, VObject (Lodash.pick file ["id"; "url"])) files)
                   | _ => VUndefined
                   end) as Hf.
  { destruct (m !! "attachedFiles") as [[| | | | |fs|]|]; simpl; try done.
    by rewrite mapM_pure. }
  cbv zeta. destruct (JS.truthy payee) eqn:Htr.
  - rewrite (get_not_nullish payee) by by apply truthy_not_nullish.
    rewrite !bind_Normal, Hf, !bind_Normal. simpl JS.array_map.
    rewrite Hmap, bind_Normal. by rewrite Hr.
  - rewrite !bind_Normal, Hf, !bind_Normal. simpl JS.array_map.
    by rewrite Hmap, bind_Normal.
Qed.

#[local] Ltac read_or_TypeError :=
  match goal with
  | |- context [JS.get ?v ?k ≫= _] =>
      let x := fresh "x" in
      let e := fresh "e" in
      let H := fresh "Hget" in
      destruct (JS.get v k) as [x|e] eqn:H; simpl;
      [|intros [= <-]; by eapply get_throws]
  end.

(** The only exception the function raises is [TypeError]. *)
Lemma prepareExpenseForSubmit_throws (expenseData : value) (e : exn) :
  prepareExpenseForSubmit expenseData = Throw e → e = TypeError.
Proof.
  unfold prepareExpenseForSubmit. read_or_TypeError.
  assert (∃ r, JS.get_opt x "id" = Normal r) as [r ->].
  { unfold JS.get_opt. destruct (JS.nullish x) eqn:Hn; [by eexists|].
    rewrite get_not_nullish by done. by eexists. }
  rewrite bind_Normal.
  assert (∃ payee', (if JS.truthy x
                     then id ← JS.get x "id";
                          Normal (VObject
                            {[ (if JS.typeof_string r then "id" else "legacyId") := id ]})
                     else Normal x) = Normal payee') as [payee' ->].
  { destruct (JS.truthy x) eqn:Htr; [|by eexists].
    rewrite get_not_nullish by by apply truthy_not_nullish. by eexists. }
  rewrite bind_Normal. do 2 read_or_TypeError.
  destruct (if JS.nullish x1 then Normal VUndefined
            else files ← JS.array_map
                   (λ file, Normal (VObject (Lodash.pick file ["id"; "url"]))) x1;
                 Normal (VArray files)) as [files|e'] eqn:Hfiles; simpl; last first.
  { intros [= <-]. destruct (JS.nullish x1); [done|].
    destruct x1; simpl in Hfiles; try congruence. by rewrite mapM_pure in Hfiles. }
  read_or_TypeError.
  destruct (JS.array_map (prepareItem expenseData) x2) as [items'|e'] eqn:Hmap;
    simpl; [done|]. intros [= <-].
  destruct x2; simpl in Hmap; try congruence.
  apply mapM_throws in Hmap as (item & _ & Hitem). by eapply prepareItem_throws.
Qed.

(** X1. [prepareExpenseForSubmit] returns a payload object exactly on the
    drafts that are an object whose [items] is an array without
    [null]/[undefined] entries and whose [attachedFiles] is unset or an
    array; on every other input it raises [TypeError]. *)
Theorem prepareExpenseForSubmit_domain (expenseData : value) :
  if submittable expenseData
  then ∃ payload, prepareExpenseForSubmit expenseData = Normal (VObject payload)
  else prepareExpenseForSubmit expenseData = Throw TypeError.
Proof.
  destruct (submittable expenseData) eqn:Hsub.
  - destruct (prepareExpenseForSubmit_returns _ Hsub) as (payload & _ & _ & Hrun & _).
    by exists payload.
  - destruct (prepareExpenseForSubmit expenseData) as [payload|e] eqn:Hrun.
    + apply prepareExpenseForSubmit_returns_only in Hrun. congruence.
    + f_equal. by eapply prepareExpenseForSubmit_throws.
Qed.

(** The own property [k] of a value, if it is an object that has one. *)
Lemma pick_lookup_value (v : value) (paths : list string) (k : string) :
  Lodash.pick v paths !! k =
    if decide (k ∈ paths)
    then match v with VObject m => m !! k | _ => None end
    else None.
Proof.
  destruct v; try (rewrite pick_lookup; done);
    simpl; rewrite lookup_empty; by case_decide.
Qed.

Lemma prepareItem_value (expenseData item : value) :
  JS.nullish expenseData = false → JS.nullish item = false →
  prepareItem expenseData item =
    Normal (VObject (Lodash.pick item
      ((if JS.truthy (Lodash.get item "__isNew") then [] else ["id"])
       ++ (if JS.strict_eq_string (Lodash.get expenseData "type") expenseTypes.INVOICE
           then [] else ["url"])
       ++ ["description"; "incurredAt"; "amount"]))).
Proof.
  intros Hd Hi. unfold prepareItem.
  rewrite (get_not_nullish item), bind_Normal by done.
  by rewrite (get_not_nullish expenseData), bind_Normal by done.
Qed.

Lemma Forall2_impl_elem {A B} (P Q : A → B → Prop) (l : list A) (k : list B) :
  Forall2 P l k → (∀ x y, In x l → P x y → Q x y) → Forall2 Q l k.
Proof.
  induction 1 as [|x y l k Hxy _ IH]; intros Himpl; constructor.
  - apply Himpl; [by left|done].
  - apply IH. intros x' y' Hin. apply Himpl. by right.
Qed.

Lemma returned_payload_eq (m payload payload' : gmap string value) :
  prepareExpenseForSubmit (VObject m) = Normal (VObject payload) →
  prepareExpenseForSubmit (VObject m) = Normal (VObject payload') →
  payload = payload'.
Proof. congruence. Qed.

Lemma returned_payload (m payload : gmap string value) :
  prepareExpenseForSubmit (VObject m) = Normal (VObject payload) →
  submittable (VObject m) = true.
Proof. apply prepareExpenseForSubmit_returns_only. Qed.

(** X2. Of the draft's own properties only [id], [description], [type],
    [privateMessage], [invoiceInfo] and [tags] pass into the payload, each
    as the draft has it (absent when the draft has none); [payee],
    [payoutMethod], [attachedFiles] and [items] are always there; and the
    payload has no other property: [currency], [privateInfo] and the like
    are never submitted. *)
Theorem payload_properties (m payload : gmap string value) :
  prepareExpenseForSubmit (VObject m) = Normal (VObject payload) →
  (∀ k, k ∈ ["id"; "description"; "type"; "privateMessage"; "invoiceInfo"; "tags"] →
        payload !! k = m !! k)
  ∧ (∀ k, k ∈ ["payee"; "payoutMethod"; "attachedFiles"; "items"] →
          is_Some (payload !! k))
  ∧ (∀ k, k ∉ ["id"; "description"; "type"; "privateMessage"; "invoiceInfo"; "tags";
               "payee"; "payoutMethod"; "attachedFiles"; "items"] →
          payload !! k = None).
Proof.
  intros Hrun.
  destruct (prepareExpenseForSubmit_payload m (returned_payload _ _ Hrun))
    as (its & items' & _ & _ & Hpayload).
  rewrite (returned_payload_eq _ _ _ Hrun Hpayload).
  split_and!.
  - intros k Hk.
    rewrite !lookup_insert_ne by (intros <-; set_solver).
    by rewrite pick_lookup, decide_True.
  - intros k Hk. rewrite !elem_of_cons, elem_of_nil in Hk.
    destruct Hk as [->|[->|[->|[->|[]]]]];
      rewrite ?lookup_insert_ne by done; rewrite lookup_insert_eq; by eexists.
  - intros k Hk.
    rewrite !lookup_insert_ne by (intros <-; set_solver).
    rewrite pick_lookup, decide_False; [done|set_solver].
Qed.

(** X3. The payload's [payoutMethod] is always an object, holding of the
    draft's payout method the properties [id], [name], [data], [isSaved] and
    [type] that it has and nothing else; a draft without a payout method
    is submitted with the empty object. *)
Theorem payload_payoutMethod (m payload : gmap string value) :
  prepareExpenseForSubmit (VObject m) = Normal (VObject payload) →
  ∃ reduced,
    payload !! "payoutMethod" = Some (VObject reduced)
    ∧ (∀ k, reduced !! k =
              if decide (k ∈ ["id"; "name"; "data"; "isSaved"; "type"])
              then match m !! "payoutMethod" with
                   | Some (VObject payoutMethod) => payoutMethod !! k
                   | _ => None
                   end
              else None)
    ∧ (JS.truthy (default VUndefined (m !! "payoutMethod")) = false → reduced = ∅).
Proof.
  intros Hrun.
  destruct (prepareExpenseForSubmit_payload m (returned_payload _ _ Hrun))
    as (its & items' & _ & _ & Hpayload).
  rewrite (returned_payload_eq _ _ _ Hrun Hpayload).
  eexists. split_and!.
  - rewrite !lookup_insert_ne by done. by rewrite lookup_insert_eq.
  - intros k. rewrite pick_lookup_value.
    by destruct (m !! "payoutMethod") as [[]|].
  - by destruct (m !! "payoutMethod") as [[]|].
Qed.

(** X4. When the draft's [attachedFiles] is unset the payload has the
    property [attachedFiles] with the value [undefined]; when it is an
    array the payload has an array of the same length whose entries, in
    order, hold the [id] and [url] the file has and nothing else. *)
Theorem payload_attachedFiles (m payload : gmap string value) :
  prepareExpenseForSubmit (VObject m) = Normal (VObject payload) →
  match m !! "attachedFiles" with
  | Some (VArray files) =>
      ∃ files',
        payload !! "attachedFiles" = Some (VArray files')
        ∧ Forall2 (λ file file',
            ∃ o, file' = VObject o
              ∧ ∀ k, o !! k = if decide (k ∈ ["id"; "url"])
                              then match file with VObject f => f !! k | _ => None end
                              else None) files files'
  | _ => payload !! "attachedFiles" = Some VUndefined
  end.
Proof.
  intros Hrun.
  destruct (prepareExpenseForSubmit_payload m (returned_payload _ _ Hrun))
    as (its & items' & _ & _ & Hpayload).
  rewrite (returned_payload_eq _ _ _ Hrun Hpayload).
  rewrite lookup_insert_ne by done. rewrite lookup_insert_eq.
  destruct (m !! "attachedFiles") as [[| | | | |files|]|]; try done.
  eexists. split; [done|].
  apply Forall2_fmap_r, Forall_Forall2_diag, Forall_forall.
  intros file _. eexists. split; [done|]. intros k. apply pick_lookup_value.
Qed.

(** X5. An item's [url] is left out exactly for invoices: when the draft's
    type is not the string INVOICE (a receipt, or no type yet) every item
    of the payload carries the [url] its item has. *)
Theorem receipt_items_keep_url (m payload : gmap string value) :
  prepareExpenseForSubmit (VObject m) = Normal (VObject payload) →
  ∃ its items',
    m !! "items" = Some (VArray its)
    ∧ payload !! "items" = Some (VArray items')
    ∧ Forall2 (λ item item',
        ∃ o, item' = VObject o
          ∧ o !! "url" =
              if JS.strict_eq_string (default VUndefined (m !! "type")) expenseTypes.INVOICE
              then None
              else match item with VObject i => i !! "url" | _ => None end) its items'.
Proof.
  intros Hrun. pose proof (returned_payload _ _ Hrun) as Hsub.
  destruct (prepareExpenseForSubmit_payload m Hsub)
    as (its & items' & Hits & Hall & Hpayload).
  rewrite (returned_payload_eq _ _ _ Hrun Hpayload).
  exists its, items'. split_and!; [done|by rewrite lookup_insert_eq|].
  simpl in Hsub. rewrite Hits in Hsub. apply andb_prop in Hsub as [Hnn _].
  rewrite forallb_forall in Hnn.
  eapply Forall2_impl_elem; [exact Hall|]. intros item item' Hin Hitem.
  apply Hnn, negb_true_iff in Hin. cbv beta in Hitem.
  rewrite prepareItem_value in Hitem by done.
  match type of Hitem with
  | Normal (VObject ?picked) = _ => exists picked; split; [congruence|]
  end.
  rewrite pick_lookup_value.
  assert (Lodash.get (VObject m) "type" = default VUndefined (m !! "type")) as -> by done.
  destruct (JS.strict_eq_string _ _).
  - rewrite decide_False; [done|].
    destruct (JS.truthy _); set_solver.
  - rewrite decide_True; [done|].
    destruct (JS.truthy _); set_solver.
Qed.

(** X6. An item of the payload never has a property other than [id],
    [url], [description], [incurredAt] and [amount]: the [__isNew] flag and
    whatever else the form keeps on an item stay on the client. *)
Theorem item_has_no_other_property (m payload : gmap string value) :
  prepareExpenseForSubmit (VObject m) = Normal (VObject payload) →
  ∃ its items',
    m !! "items" = Some (VArray its)
    ∧ payload !! "items" = Some (VArray items')
    ∧ Forall2 (λ _ item',
        ∃ o, item' = VObject o
          ∧ o !! "__isNew" = None
          ∧ ∀ k, k ∉ ["id"; "url"; "description"; "incurredAt"; "amount"] →
                 o !! k = None) its items'.
Proof.
  intros Hrun. pose proof (returned_payload _ _ Hrun) as Hsub.
  destruct (prepareExpenseForSubmit_payload m Hsub)
    as (its & items' & Hits & Hall & Hpayload).
  rewrite (returned_payload_eq _ _ _ Hrun Hpayload).
  exists its, items'. split_and!; [done|by rewrite lookup_insert_eq|].
  simpl in Hsub. rewrite Hits in Hsub. apply andb_prop in Hsub as [Hnn _].
  rewrite forallb_forall in Hnn.
  eapply Forall2_impl_elem; [exact Hall|]. intros item item' Hin Hitem.
  apply Hnn, negb_true_iff in Hin. cbv beta in Hitem.
  rewrite prepareItem_value in Hitem by done.
  match type of Hitem with
  | Normal (VObject ?picked) = _ => exists picked; split; [congruence|]
  end.
  assert (∀ k, k ∉ ["id"; "url"; "description"; "incurredAt"; "amount"] →
            Lodash.pick item
              ((if JS.truthy (Lodash.get item "__isNew") then [] else ["id"])
               ++ (if JS.strict_eq_string (Lodash.get (VObject m) "type")
                                          expenseTypes.INVOICE
                   then [] else ["url"])
               ++ ["description"; "incurredAt"; "amount"]) !! k = None) as Hother.
  { intros k Hk. apply pick_lookup_not_listed.
    destruct (JS.truthy _), (JS.strict_eq_string _ _); set_solver. }
  split; [|exact Hother]. apply Hother. set_solver.
Qed.

(** X7. A set payee whose [id] is missing is still sent under [legacyId],
    with the value [undefined]: a payee that has only a [legacyId] property
    loses its identifier. *)
Theorem payee_without_id (expenseData payee : value) :
  submittable expenseData = true →
  JS.get expenseData "payee" = Normal payee →
  JS.truthy payee = true →
  Lodash.get payee "id" = VUndefined →
  ∃ payload,
    prepareExpenseForSubmit expenseData = Normal (VObject payload)
    ∧ payload !! "payee" = Some (VObject {[ "legacyId" := VUndefined ]}).
Proof.
  intros Hsub Hpayee Htr Hid.
  destruct (payee_reduction _ _ Hsub Hpayee Htr) as (payload & Hrun & Hout).
  exists payload. split; [done|]. by rewrite Hout, Hid.
Qed.

End Payload.

Section ValidateMore.

Import ExpenseForm FormUtils.

Variable ToNumber_coerce : value → completion number.
Variable validateExpenseItem : value → value → value.
Variable validatePayoutMethod : value → value.

#[local] Abbreviation validate :=
  (validate ToNumber_coerce validateExpenseItem validatePayoutMethod).

(** The entries of the mapping [validate] returns on a draft whose [items]
    is an array. *)
Lemma validate_lookup (expense : value) (its : list value) (k : string) :
  JS.get expense "items" = Normal (VArray its) →
  ∃ errors,
    validate expense = Normal errors
    ∧ errors !! k =
        let itemsErrors := map (validateExpenseItem expense) its in
        let payoutMethod := Lodash.get expense "payoutMethod" in
        if decide (k = "payoutMethod"
                   ∧ JS.truthy payoutMethod = true
                   ∧ Lodash.isEmpty (validatePayoutMethod payoutMethod) = false)
        then Some (validatePayoutMethod payoutMethod)
        else if decide (k = "items"
                        ∧ existsb (λ errors, negb (Lodash.isEmpty errors)) itemsErrors = true)
        then Some (VArray itemsErrors)
        else requireFields expense ["description"; "payee"; "payoutMethod"; "currency"] !! k.
Proof.
  intros Hits. eexists. split; [by apply validate_array_items|]. cbv zeta.
  set (errors0 := requireFields expense ["description"; "payee"; "payoutMethod"; "currency"]).
  set (itemsErrors := map (validateExpenseItem expense) its).
  set (pm := Lodash.get expense "payoutMethod").
  assert ((if (0 <? Z.of_nat (length its))%Z
           then if existsb (λ errors, negb (Lodash.isEmpty errors)) itemsErrors
                then <["items" := VArray itemsErrors]> errors0 else errors0
           else errors0)
          = if existsb (λ errors, negb (Lodash.isEmpty errors)) itemsErrors
            then <["items" := VArray itemsErrors]> errors0 else errors0) as ->.
  { subst itemsErrors. by destruct its. }
  destruct (JS.truthy pm) eqn:Htr;
    [destruct (Lodash.isEmpty (validatePayoutMethod pm)) eqn:Hpm; simpl negb; cbv iota|];
    destruct (existsb _ itemsErrors) eqn:Hany;
    destruct (decide (k = "payoutMethod")) as [Hk1|Hk1];
    destruct (decide (k = "items")) as [Hk2|Hk2];
    try (by subst);
    repeat (case_decide; try naive_solver);
    subst;
    by rewrite ?lookup_insert_eq, ?lookup_insert_ne, ?lookup_insert_eq by done.
Qed.

(** X8. The per-item errors are attached under [items] only when at least
    one item has a non-empty error mapping; then the list has one entry
    per item, in the order of the items, the entries of the valid items
    included.  A draft with no items, or with valid items only, gets no
    [items] entry. *)
Theorem items_errors_attached (expense : value) (its : list value) :
  JS.get expense "items" = Normal (VArray its) →
  ∃ errors,
    validate expense = Normal errors
    ∧ errors !! "items" =
        if existsb (λ item, negb (Lodash.isEmpty (validateExpenseItem expense item))) its
        then Some (VArray (map (validateExpenseItem expense) its))
        else None.
Proof.
  intros Hits. destruct (validate_lookup expense its "items" Hits) as (errors & Hv & Hk).
  exists errors. split; [done|]. rewrite Hk. cbv zeta.
  rewrite decide_False by naive_solver.
  assert (existsb (λ errors, negb (Lodash.isEmpty errors))
            (map (validateExpenseItem expense) its)
          = existsb (λ item, negb (Lodash.isEmpty (validateExpenseItem expense item))) its)
    as ->.
  { clear. induction its as [|it its IH]; simpl; [done|]. by rewrite IH. }
  destruct (existsb _ its).
  - by rewrite decide_True.
  - rewrite decide_False by naive_solver.
    by rewrite requireFields_lookup, decide_False by set_solver.
Qed.

(** X9. The payout-method validator is consulted only for a set payout
    method, and its result, when not empty, takes the place of whatever
    the required-field check left under [payoutMethod]; apart from [items]
    and [payoutMethod], [validate] returns the entries of the
    required-field check unchanged. *)
Theorem payoutMethod_errors_override (expense : value) (its : list value) :
  JS.get expense "items" = Normal (VArray its) →
  ∃ errors,
    validate expense = Normal errors
    ∧ errors !! "payoutMethod" =
        (let payoutMethod := Lodash.get expense "payoutMethod" in
         if JS.truthy payoutMethod && negb (Lodash.isEmpty (validatePayoutMethod payoutMethod))
         then Some (validatePayoutMethod payoutMethod)
         else requireFields expense ["description"; "payee"; "payoutMethod"; "currency"]
                !! "payoutMethod")
    ∧ ∀ k, k ≠ "items" → k ≠ "payoutMethod" →
           errors !! k =
             requireFields expense ["description"; "payee"; "payoutMethod"; "currency"] !! k.
Proof.
  intros Hits.
  destruct (validate_lookup expense its "payoutMethod" Hits) as (errors & Hv & Hpm).
  exists errors. split_and!; [done| |].
  - rewrite Hpm. cbv zeta.
    destruct (JS.truthy (Lodash.get expense "payoutMethod")); cbn [andb].
    + destruct (Lodash.isEmpty _); cbn [negb].
      * rewrite decide_False by naive_solver. by rewrite decide_False by naive_solver.
      * by rewrite decide_True.
    + rewrite decide_False by naive_solver. by rewrite decide_False by naive_solver.
  - intros k Hk1 Hk2.
    destruct (validate_lookup expense its k Hits) as (errors' & Hv' & Hk).
    assert (errors' = errors) as -> by congruence.
    rewrite Hk. cbv zeta.
    rewrite decide_False by naive_solver. by rewrite decide_False by naive_solver.
Qed.

(** X10. [validate] returns the empty mapping, the one on which the form
    submits, exactly when the required-field check finds nothing, every
    item's error mapping is empty, and the payout method, if set, has an
    empty error mapping. *)
Theorem validate_empty_iff (expense : value) (its : list value) :
  JS.get expense "items" = Normal (VArray its) →
  validate expense = Normal ∅ ↔
    requireFields expense ["description"; "payee"; "payoutMethod"; "currency"] = ∅
    ∧ Forall (λ item, Lodash.isEmpty (validateExpenseItem expense item) = true) its
    ∧ (JS.truthy (Lodash.get expense "payoutMethod") = true →
       Lodash.isEmpty (validatePayoutMethod (Lodash.get expense "payoutMethod")) = true).
Proof.
  intros Hits. rewrite (validate_array_items _ _ _ _ its Hits). cbv zeta.
  set (errors0 := requireFields expense ["description"; "payee"; "payoutMethod"; "currency"]).
  set (pm := Lodash.get expense "payoutMethod").
  assert (existsb (λ errors, negb (Lodash.isEmpty errors))
            (map (validateExpenseItem expense) its) = false
          ↔ Forall (λ item, Lodash.isEmpty (validateExpenseItem expense item) = true) its)
    as Hall.
  { clear. induction its as [|it its IH]; simpl.
    - split; [constructor|done].
    - rewrite orb_false_iff, negb_false_iff, IH. split.
      + intros [??]. by constructor.
      + by inversion 1. }
  assert ((if (0 <? Z.of_nat (length its))%Z
           then if existsb (λ errors, negb (Lodash.isEmpty errors))
                     (map (validateExpenseItem expense) its)
                then <["items" := VArray (map (validateExpenseItem expense) its)]> errors0
                else errors0
           else errors0)
          = if existsb (λ errors, negb (Lodash.isEmpty errors))
                 (map (validateExpenseItem expense) its)
            then <["items" := VArray (map (validateExpenseItem expense) its)]> errors0
            else errors0) as ->.
  { by destruct its. }
  assert (∀ (a b : gmap string value), Normal a = Normal b ↔ a = b) as Hinj.
  { intros a b. split; congruence. }
  rewrite Hinj.
  destruct (existsb _ (map _ its)) eqn:Hany.
  - split.
    + intros Hempty. exfalso.
      destruct (JS.truthy pm); [destruct (negb _)|];
        try (by apply insert_non_empty in Hempty).
    + intros (_ & Hforall & _). apply Hall in Hforall. congruence.
  - pose proof (proj1 Hall eq_refl) as Hforall.
    destruct (JS.truthy pm); [destruct (Lodash.isEmpty (validatePayoutMethod pm)); simpl|].
    + naive_solver.
    + split; [by intros ?%insert_non_empty|naive_solver].
    + naive_solver.
Qed.

Variable onSubmit_result : value → completion value.

#[local] Abbreviation handleSubmit :=
  (handleSubmit ToNumber_coerce validateExpenseItem validatePayoutMethod onSubmit_result).
#[local] Abbreviation afterSubmits :=
  (afterSubmits ToNumber_coerce validateExpenseItem validatePayoutMethod onSubmit_result).

(** X11. On a draft whose [items] is unset ([undefined], [null] or absent,
    and so on a draft that is itself unset) [validate] raises [TypeError];
    a submit attempt on it is rejected with that error and does nothing else:
    [onSubmit] is not called, no error is set, the validation mode is as
    before. *)
Theorem validate_without_items (expense : value) (st : form) :
  JS.nullish (Lodash.get expense "items") = true →
  validate expense = Throw TypeError
  ∧ handleSubmit expense st = (Throw TypeError, st).
Proof.
  intros Hitems.
  assert (validate expense = Throw TypeError) as Hv.
  { unfold ExpenseForm.validate, Lodash.get in *.
    destruct (JS.get expense "items") as [items|e] eqn:Hget.
    - rewrite bind_Normal. by destruct items.
    - by apply get_throws in Hget as ->. }
  split; [done|]. unfold ExpenseForm.handleSubmit. by rewrite run_bind_lift, Hv.
Qed.

(** X12. Whatever the series of submit attempts, [onSubmit] is only ever
    called with values on which [validate] returns the empty mapping, and
    at most once per attempt. *)
Theorem only_valid_drafts_submitted (attempts : list value) (st : form) :
  Forall (λ values, validate values = Normal ∅) (onSubmitCalls st) →
  Forall (λ values, validate values = Normal ∅) (onSubmitCalls (afterSubmits attempts st))
  ∧ length (onSubmitCalls (afterSubmits attempts st))
    ≤ length (onSubmitCalls st) + length attempts.
Proof.
  revert st. induction attempts as [|values attempts IH]; intros st Hst.
  - simpl. split; [done|lia].
  - assert (Forall (λ values, validate values = Normal ∅)
              (onSubmitCalls (handleSubmit values st).2)
            ∧ length (onSubmitCalls (handleSubmit values st).2)
              ≤ S (length (onSubmitCalls st))) as [Hstep Hlen].
    { unfold ExpenseForm.handleSubmit. rewrite run_bind_lift.
      destruct (validate values) as [errors|e] eqn:Hv; [|split; [done|simpl; lia]].
      destruct (Lodash.isEmpty (VObject errors)) eqn:Hempty; simpl.
      - apply isEmpty_object in Hempty as ->. split; [by constructor|lia].
      - split; [done|lia]. }
    destruct (IH _ Hstep) as [Hall Hcount].
    split; [exact Hall|]. simpl in *. lia.
Qed.

End ValidateMore.

Section FormBodyMore.

Import ExpenseForm.

Variable ToNumber_coerce : value → completion number.

#[local] Abbreviation stepOneCompleted := (stepOneCompleted ToNumber_coerce).
#[local] Abbreviation stepTwoCompleted := (stepTwoCompleted ToNumber_coerce).
#[local] Abbreviation submitDisabled := (submitDisabled ToNumber_coerce).

(** An enabled submit button means a set payout method. *)
Lemma submit_enabled_only_after_step_one_aux (fk : formik) :
  submitDisabled fk = Normal false →
  JS.truthy (Lodash.get (values fk) "payoutMethod") = true.
Proof.
  unfold ExpenseForm.submitDisabled, ExpenseForm.stepTwoCompleted.
  destruct (stepOneCompleted (values fk)) as [one|e]; [|done].
  rewrite bind_Normal.
  destruct (JS.truthy one) eqn:Hone.
  - destruct (JS.get (values fk) "payoutMethod") as [pm|e] eqn:Hpm; [|done].
    rewrite bind_Normal. intros [= Hen]. apply orb_false_iff in Hen as [Hp _].
    apply negb_false_iff in Hp. unfold Lodash.get. by rewrite Hpm.
  - rewrite bind_Normal, Hone. done.
Qed.

(** X13. Whatever the form values are, the submit button is enabled only
    when the first step is completed with the boolean [true] (the payout
    section is shown), the base fields are set, the payout method is set
    and the form is valid. *)
Theorem submit_enabled_only_after_step_one (fk : formik) :
  submitDisabled fk = Normal false →
  stepOneCompleted (values fk) = Normal (VBool true)
  ∧ (∃ base, hasBaseFormFieldsCompleted (values fk) = Normal base ∧ JS.truthy base = true)
  ∧ JS.truthy (Lodash.get (values fk) "payoutMethod") = true
  ∧ isValid fk = true.
Proof.
  unfold ExpenseForm.submitDisabled, ExpenseForm.stepTwoCompleted,
    ExpenseForm.stepOneCompleted.
  destruct (hasBaseFormFieldsCompleted (values fk)) as [base|e] eqn:Hbase; [|done].
  rewrite bind_Normal.
  destruct (JS.truthy base) eqn:Hb; last first.
  { rewrite !bind_Normal, Hb, bind_Normal, Hb. done. }
  destruct (JS.get (values fk) "items") as [items|e]; [|done]. rewrite bind_Normal.
  destruct (JS.get items "length") as [len|e]; [|done]. rewrite bind_Normal.
  destruct (JS.gt ToNumber_coerce len 0) as [[]|e]; [| |done].
  - rewrite !bind_Normal. simpl JS.truthy. cbv iota.
    destruct (JS.get (values fk) "payoutMethod") as [pm|e] eqn:Hpm; [|done].
    rewrite bind_Normal. intros [= Hen]. apply orb_false_iff in Hen as [Hp Hv].
    apply negb_false_iff in Hp, Hv.
    split_and!; [done|by exists base| |done].
    unfold Lodash.get. by rewrite Hpm.
  - by rewrite !bind_Normal.
Qed.

Lemma submitDisabled_base_unset (fk : formik) (m : gmap string value) :
  values fk = VObject m →
  JS.truthy (default VUndefined (m !! "type")) = false
  ∨ JS.truthy (default VUndefined (m !! "description")) = false →
  submitDisabled fk = Normal true.
Proof.
  intros Hvalues.
  unfold ExpenseForm.submitDisabled, ExpenseForm.stepTwoCompleted,
    ExpenseForm.stepOneCompleted, hasBaseFormFieldsCompleted.
  rewrite Hvalues, !get_object, !bind_Normal.
  intros [Htype|Hdesc].
  - rewrite Htype, !bind_Normal, Htype, bind_Normal, Htype, bind_Normal, Htype. done.
  - destruct (JS.truthy (default VUndefined (m !! "type"))) eqn:Htype.
    + rewrite !bind_Normal, Hdesc, bind_Normal, Hdesc, bind_Normal, Hdesc. done.
    + rewrite !bind_Normal, Htype, bind_Normal, Htype, bind_Normal, Htype. done.
Qed.

(** X14. The step gating reads [items] only once [type] and
    [description] are set.  Without one of them [stepTwoCompleted] is falsy
    and the button is disabled also when [items] is unset; with both set
    and [items] unset ([undefined], [null] or absent) computing the step
    raises [TypeError]. *)
Theorem gating_reads_items_lazily (fk : formik) (m : gmap string value) :
  values fk = VObject m →
  (JS.truthy (default VUndefined (m !! "type")) = false
   ∨ JS.truthy (default VUndefined (m !! "description")) = false →
   submitDisabled fk = Normal true)
  ∧ (JS.truthy (default VUndefined (m !! "type")) = true →
     JS.truthy (default VUndefined (m !! "description")) = true →
     JS.nullish (default VUndefined (m !! "items")) = true →
     submitDisabled fk = Throw TypeError).
Proof.
  intros Hvalues. split; [by apply submitDisabled_base_unset|].
  unfold ExpenseForm.submitDisabled, ExpenseForm.stepTwoCompleted,
    ExpenseForm.stepOneCompleted, hasBaseFormFieldsCompleted.
  rewrite Hvalues, !get_object, !bind_Normal.
  intros Htype Hdesc Hitems.
  rewrite Htype, bind_Normal, Hdesc.
  by destruct (default VUndefined (m !! "items")).
Qed.

(** X15. The initial values of the form are the default expense with the
    own properties of the [expense] prop over it: a property the expense
    has, be it with the value [undefined], replaces the default, and the
    defaults fill in the rest.  Building them raises [TypeError] exactly
    when the collective is unset. *)
Theorem initialValues_merge (collective payoutProfiles : value) (expense : gmap string value) :
  if JS.nullish collective
  then initialValues collective payoutProfiles (VObject expense) = Throw TypeError
  else
    ∃ initial,
      initialValues collective payoutProfiles (VObject expense) = Normal (VObject initial)
      ∧ ∀ k, initial !! k =
          match expense !! k with
          | Some v => Some v
          | None =>
              ({[ "description" := VString ""; "items" := VArray [];
                  "payee" := Lodash.first payoutProfiles; "payoutMethod" := VUndefined;
                  "privateInfo" := VString "";
                  "currency" := Lodash.get collective "currency" ]}
                 : gmap string value) !! k
          end.
Proof.
  unfold initialValues, getDefaultExpense.
  destruct (JS.nullish collective) eqn:Hc.
  - by destruct collective.
  - rewrite (get_not_nullish collective) by done. rewrite !bind_Normal.
    eexists. split; [done|]. intros k.
    unfold JS.spread. simpl JS.own_properties.
    rewrite lookup_union, (right_id_L ∅ (∪)).
    destruct (expense !! k) as [v|]; [by rewrite union_Some_l|].
    by rewrite (left_id_L None union).
Qed.

(** X16. A new form (no [expense] to edit) starts with an empty list of
    items and with the submit button disabled, whatever the collective and
    the payout profiles are. *)
Theorem new_form_cannot_submit
    (collective payoutProfiles : value) (isDirty isValid : bool) :
  JS.nullish collective = false →
  ∃ initial,
    initialValues collective payoutProfiles VUndefined = Normal initial
    ∧ JS.get initial "items" = Normal (VArray [])
    ∧ submitDisabled (Formik initial isDirty isValid) = Normal true.
Proof.
  intros Hc. unfold initialValues, getDefaultExpense.
  rewrite (get_not_nullish collective) by done. rewrite !bind_Normal.
  eexists. split; [done|].
  unfold JS.spread. simpl JS.own_properties.
  rewrite (left_id_L ∅ (∪)), (right_id_L ∅ (∪)).
  split; [done|].
  eapply submitDisabled_base_unset; [done|]. by left.
Qed.

(** What [setFieldValue] leaves in the values: the field reads as the value
    given; the property is there with that value, unless the value is
    [undefined], which removes it (or leaves an [undefined] one as it is);
    no other property changes. *)
Lemma setFieldValue_read (field : string) (v : value) (m : gmap string value) :
  default VUndefined (Formik.setFieldValue field v m !! field) = v.
Proof.
  unfold Formik.setFieldValue.
  destruct v; try by rewrite lookup_insert_eq.
  destruct (default VUndefined (m !! field)) eqn:Hold;
    first done; by rewrite lookup_delete_eq.
Qed.

Lemma setFieldValue_lookup (field : string) (v : value) (m : gmap string value) :
  Formik.setFieldValue field v m !! field =
    match v with
    | VUndefined =>
        match m !! field with
        | Some VUndefined => Some VUndefined
        | _ => None
        end
    | _ => Some v
    end.
Proof.
  unfold Formik.setFieldValue.
  destruct v; try by rewrite lookup_insert_eq.
  destruct (m !! field) as [[]|] eqn:Hold; simpl;
    first done; by rewrite ?lookup_delete_eq.
Qed.

Lemma setFieldValue_other (field k : string) (v : value) (m : gmap string value) :
  k ≠ field → Formik.setFieldValue field v m !! k = m !! k.
Proof.
  intros Hk. unfold Formik.setFieldValue.
  destruct v; try by rewrite lookup_insert_ne.
  destruct (default VUndefined (m !! field));
    first done; by rewrite lookup_delete_ne.
Qed.

(** X17. Choosing a payee in the picker makes [payee] read as the chosen
    value: the property holds it, except that a selection without a value
    ([undefined]) removes the property, or leaves it alone when it already
    is [undefined].  [payoutMethod] is reset to [null] and every other
    field is left alone; the submit button is then never enabled, whatever
    the form was, until a payout method is chosen again. *)
Theorem payee_change_resets_payoutMethod
    (selected : value) (before after : gmap string value) (isDirty isValid : bool) :
  onChangePayee selected before = Normal after →
  Lodash.get (VObject after) "payee" = Lodash.get selected "value"
  ∧ after !! "payee" =
      match Lodash.get selected "value" with
      | VUndefined =>
          match before !! "payee" with
          | Some VUndefined => Some VUndefined
          | _ => None
          end
      | chosen => Some chosen
      end
  ∧ after !! "payoutMethod" = Some VNull
  ∧ (∀ k, k ≠ "payee" → k ≠ "payoutMethod" → after !! k = before !! k)
  ∧ submitDisabled (Formik (VObject after) isDirty isValid) ≠ Normal false.
Proof.
  unfold onChangePayee.
  destruct (JS.get selected "value") as [value|e] eqn:Hvalue; [|done].
  rewrite bind_Normal. intros Hafter.
  assert (after = Formik.setFieldValue "payoutMethod" VNull
                    (Formik.setFieldValue "payee" value before)) as -> by congruence.
  clear Hafter.
  assert (Lodash.get selected "value" = value) as ->
    by (unfold Lodash.get; by rewrite Hvalue).
  split_and!.
  - unfold Lodash.get. rewrite get_object.
    rewrite (setFieldValue_other "payoutMethod" "payee") by done.
    apply setFieldValue_read.
  - rewrite (setFieldValue_other "payoutMethod" "payee") by done.
    rewrite setFieldValue_lookup. by destruct value.
  - by rewrite setFieldValue_lookup.
  - intros k Hk1 Hk2. by rewrite !setFieldValue_other.
  - intros Hen. apply submit_enabled_only_after_step_one_aux in Hen.
    unfold Lodash.get in Hen. cbn [values] in Hen.
    by rewrite get_object, setFieldValue_read in Hen.
Qed.


End FormBodyMore.

Section Effects.

Import ExpenseForm.

(** X19. The default-payee effect never replaces a payee that is set.  On
    form values without a payee it selects the first of the payout
    profiles when these are a non-empty array, and does nothing when they
    are empty or not loaded yet. *)
Theorem default_payee_only_when_unset (fk : formik) (m : gmap string value) :
  values fk = VObject m →
  (∀ payoutProfiles,
     JS.truthy (default VUndefined (m !! "payee")) = true →
     defaultPayeeEffect fk payoutProfiles = Normal None)
  ∧ (∀ profiles,
       JS.truthy (default VUndefined (m !! "payee")) = false →
       defaultPayeeEffect fk (VArray profiles) = Normal (head profiles))
  ∧ (∀ payoutProfiles,
       JS.nullish payoutProfiles = true →
       defaultPayeeEffect fk payoutProfiles = Normal None).
Proof.
  intros Hvalues. unfold defaultPayeeEffect. rewrite Hvalues.
  split_and!.
  - intros payoutProfiles Htr. by rewrite get_object, bind_Normal, Htr.
  - intros profiles Hfalsy. rewrite get_object, bind_Normal, Hfalsy.
    by destruct profiles.
  - intros payoutProfiles Hn. rewrite get_object, bind_Normal.
    destruct payoutProfiles; try done; by rewrite andb_false_r.
Qed.

(** X20. On the initial values of a new form the default-payee effect,
    run with the payout profiles the values were built from, changes
    nothing: either it makes no call, or it sets [payee] to the value the
    form already has. *)
Theorem default_payee_keeps_initial_values
    (collective payoutProfiles : value) (isDirty isValid : bool) :
  JS.nullish collective = false →
  ∃ initial,
    initialValues collective payoutProfiles VUndefined = Normal initial
    ∧ (defaultPayeeEffect (Formik initial isDirty isValid) payoutProfiles = Normal None
       ∨ defaultPayeeEffect (Formik initial isDirty isValid) payoutProfiles
         = Normal (Some (Lodash.get initial "payee"))).
Proof.
  intros Hc. unfold initialValues, getDefaultExpense.
  rewrite (get_not_nullish collective) by done. rewrite !bind_Normal.
  eexists. split; [done|].
  unfold JS.spread. simpl JS.own_properties.
  rewrite (left_id_L ∅ (∪)), (right_id_L ∅ (∪)).
  unfold defaultPayeeEffect. simpl values. rewrite get_object, bind_Normal.
  assert (∀ d : gmap string value,
            Lodash.get (VObject d) "payee" = default VUndefined (d !! "payee")) as -> by done.
  match goal with
  | |- context [default VUndefined (?d !! "payee")] =>
      assert (default VUndefined (d !! "payee") = Lodash.first payoutProfiles) as -> by done
  end.
  destruct (negb (JS.truthy (Lodash.first payoutProfiles))
            && negb (Lodash.isEmpty payoutProfiles)); [by right|by left].
Qed.

(** X21. In one render at most one of the two persistence effects acts:
    values are saved only from a dirty form and loaded only into a form
    that is not dirty.  Without a persister neither does anything, and
    when nothing was saved (the persister returns a falsy value) the load
    effect makes no call. *)
Theorem load_and_save_exclusive
    (formPersister : option FormPersister.t) (fk : formik) (collective : value) :
  (saveEffect formPersister fk = None ∨ loadEffect formPersister fk collective = Normal None)
  ∧ (formPersister = None →
     saveEffect formPersister fk = None ∧ loadEffect formPersister fk collective = Normal None)
  ∧ (∀ persister,
       formPersister = Some persister →
       JS.truthy (FormPersister.loadValues persister) = false →
       loadEffect formPersister fk collective = Normal None).
Proof.
  unfold saveEffect, loadEffect. split_and!.
  - destruct (dirty fk); [right|by left]. by destruct formPersister.
  - intros ->. by destruct (dirty fk).
  - intros persister -> Hfalsy. rewrite Hfalsy. by destruct (dirty fk).
Qed.

(** X22. A saved draft whose payout method is not of type BANK_ACCOUNT (or
    that has none) is restored exactly as loaded, and the collective is not
    looked at: the effect works also while the collective or its host is
    unset. *)
Theorem other_drafts_restored_as_loaded
    (persister : FormPersister.t) (fk : formik) (collective : value) :
  dirty fk = false →
  JS.truthy (FormPersister.loadValues persister) = true →
  JS.strict_eq_string
    (Lodash.get (Lodash.get (FormPersister.loadValues persister) "payoutMethod") "type")
    PayoutMethodType.BANK_ACCOUNT = false →
  loadEffect (Some persister) fk collective
  = Normal (Some (FormPersister.loadValues persister)).
Proof.
  intros Hdirty Htr Htype. unfold loadEffect. rewrite Hdirty, Htr. simpl negb. cbv iota zeta.
  rewrite (get_not_nullish (FormPersister.loadValues persister))
    by by apply truthy_not_nullish.
  rewrite bind_Normal.
  set (payoutMethod := Lodash.get (FormPersister.loadValues persister) "payoutMethod") in *.
  assert (JS.get_opt payoutMethod "type" = Normal (Lodash.get payoutMethod "type")) as ->.
  { unfold JS.get_opt. destruct (JS.nullish payoutMethod) eqn:Hn.
    - by destruct payoutMethod.
    - by apply get_not_nullish. }
  by rewrite bind_Normal, Htype, bind_Normal.
Qed.

(** X23. Loading a draft whose payout method has type BANK_ACCOUNT for a
    collective that is unset or has no host raises [TypeError]: nothing is
    restored. *)
Theorem bank_account_draft_needs_host
    (persister : FormPersister.t) (fk : formik) (draft : gmap string value)
    (collective : value) :
  dirty fk = false →
  FormPersister.loadValues persister = VObject draft →
  JS.strict_eq_string (Lodash.get (default VUndefined (draft !! "payoutMethod")) "type")
                      PayoutMethodType.BANK_ACCOUNT = true →
  JS.nullish (Lodash.get collective "host") = true →
  loadEffect (Some persister) fk collective = Throw TypeError.
Proof.
  intros Hdirty Hload Htype Hhost. unfold loadEffect.
  rewrite Hdirty, Hload. simpl negb. cbv iota zeta. simpl JS.truthy. cbv iota.
  rewrite get_object, bind_Normal.
  set (payoutMethod := default VUndefined (draft !! "payoutMethod")) in *.
  assert (JS.get_opt payoutMethod "type" = Normal (Lodash.get payoutMethod "type")) as ->.
  { unfold JS.get_opt. destruct (JS.nullish payoutMethod) eqn:Hn.
    - by destruct payoutMethod.
    - by apply get_not_nullish. }
  rewrite bind_Normal, Htype. unfold Lodash.get in Hhost.
  destruct (JS.get collective "host") as [host|e] eqn:Hget.
  - rewrite bind_Normal. by destruct host.
  - by apply get_throws in Hget as ->.
Qed.

(** X24. Loading is idempotent: the values the load effect restores, put
    back into the draft slot and loaded again, are restored unchanged. *)
Theorem load_idempotent
    (persister : FormPersister.t) (fk : formik) (collective restored : value) :
  loadEffect (Some persister) fk collective = Normal (Some restored) →
  loadEffect (Some (FormPersister.Make restored)) fk collective = Normal (Some restored).
Proof.
  unfold loadEffect, FormPersister.loadValues.
  destruct (dirty fk); [done|]. simpl negb. cbv iota zeta.
  destruct persister as [loaded]. simpl FormPersister.slot.
  destruct (JS.truthy loaded) eqn:Htr; [|done].
  rewrite (get_not_nullish loaded) by by apply truthy_not_nullish.
  rewrite bind_Normal.
  destruct (JS.get_opt (Lodash.get loaded "payoutMethod") "type") as [type|e] eqn:Htype;
    [|done].
  rewrite bind_Normal.
  destruct (JS.strict_eq_string type PayoutMethodType.BANK_ACCOUNT) eqn:Hbank.
  - destruct (JS.get collective "host") as [host|e]; [|done]. rewrite bind_Normal.
    destruct (JS.get host "transferwise") as [tw|e]; [|done]. rewrite !bind_Normal.
    destruct (JS.truthy tw); simpl negb; cbv iota.
    + intros [= <-]. rewrite Htr.
      rewrite (get_not_nullish loaded) by by apply truthy_not_nullish.
      by rewrite bind_Normal, Htype, bind_Normal, Hbank.
    + destruct loaded as [| | | | | |m];
        try (unfold JS.get_opt in Htype; simpl in Htype; injection Htype as <-; done).
      intros [= <-]. simpl JS.truthy. cbv iota.
      rewrite get_object, lookup_insert_eq. simpl default.
      unfold JS.get_opt. simpl. done.
  - rewrite bind_Normal. intros [= <-]. rewrite Htr.
    rewrite (get_not_nullish loaded) by by apply truthy_not_nullish.
    by rewrite bind_Normal, Htype, bind_Normal, Hbank.
Qed.

End Effects.

Section MemberModalMore.

Import EditMemberModal.

Lemma flag_kept (st st' : modal) :
  submitting st' = submitting st ∨ submitting st' = true →
  if submitting st then submitting st' = true else True.
Proof. destruct (submitting st); [|done]. by intros [?|?]. Qed.

(** X25. One run of [handleSubmitForm], from any state and whatever the
    sub-form and the mutation do: it never sets [submitting] back to
    [false]; it makes no call at all while no sub-form is bound; otherwise
    it calls the sub-form's submit first and issues at most one mutation,
    after it, both while [submitting] has the value it had before the run. *)
Theorem handleSubmitForm_effects
    (member collective values : value) (submitMemberForm : option (completion value))
    (editMemberAccount_result : value → completion value) (st : modal) :
  let run :=
    handleSubmitForm member collective submitMemberForm editMemberAccount_result values st in
  (if submitting st then submitting run.2 = true else True)
  ∧ match submitMemberForm with
    | None => run = (Normal VUndefined, st)
    | Some _ =>
        calls run.2 = SubmitMemberForm (submitting st) :: calls st
        ∨ ∃ options,
            calls run.2 =
              EditMemberAccount options (submitting st)
                :: SubmitMemberForm (submitting st) :: calls st
    end.
Proof.
  cbv zeta. unfold handleSubmitForm.
  destruct submitMemberForm as [r|]; [|split; [apply flag_kept; by left|done]].
  destruct r as [submitted|e]; last first.
  { erewrite run_bind_Throw by reflexivity.
    split; [apply flag_kept; by left|by left]. }
  erewrite run_bind_Normal by reflexivity.
  do 4 (rewrite run_bind_lift;
        match goal with
        | |- context [match ?c with Normal _ => _ | Throw _ => _ end] =>
            destruct c; [|split; [apply flag_kept; by left|by left]]
        end).
  match goal with
  | |- context [editMemberAccount _ ?o] => set (options := o)
  end.
  destruct (editMemberAccount_result options) as [result|e] eqn:Hres; last first.
  { erewrite run_bind_Throw; last first.
    { unfold editMemberAccount. by rewrite Hres. }
    split; [apply flag_kept; by left|]. right. by exists options. }
  erewrite run_bind_Normal; last first.
  { unfold editMemberAccount. by rewrite Hres. }
  do 2 (rewrite run_bind_lift;
        match goal with
        | |- context [match ?c with Normal _ => _ | Throw _ => _ end] =>
            destruct c;
            [|split; [apply flag_kept; by left|right; by exists options]]
        end).
  split; [apply flag_kept; by right|]. right. by exists options.
Qed.

(** X26. When the values handed to [handleSubmitForm], or the [member]
    prop, are unset, the handler fails with [TypeError] after it has
    called the sub-form's submit and before any mutation is issued. *)
Theorem unreadable_input_after_subform_submit
    (member collective values submitted : value)
    (editMemberAccount_result : value → completion value) (st : modal) :
  JS.nullish values = true ∨ JS.nullish member = true →
  handleSubmitForm member collective (Some (Normal submitted)) editMemberAccount_result
      values st
  = (Throw TypeError, Modal (submitting st) (SubmitMemberForm (submitting st) :: calls st)).
Proof.
  intros Hunset. unfold handleSubmitForm.
  erewrite run_bind_Normal by reflexivity. rewrite run_bind_lift.
  destruct (JS.nullish values) eqn:Hv.
  - by destruct values.
  - destruct Hunset as [?|Hm]; [done|].
    rewrite (get_not_nullish values), run_bind_lift by done.
    rewrite (get_not_nullish values), run_bind_lift by done.
    rewrite (get_not_nullish values), run_bind_lift by done.
    by destruct member.
Qed.

(** X28. As the other version of the modal, the one with [continueHandler],
    stands, with no [setSubmitting] declared, a click on the confirm button
    fails with [ReferenceError] in any state and [continueHandler] is never
    called. *)
Theorem onClickContinue_never_continues
    (continueHandler_result : completion value) (st : modal) :
  onClickContinue None continueHandler_result st = (Throw ReferenceError, st).
Proof. reflexivity. Qed.

End MemberModalMore.

(** * The further properties at sample inputs *)

Section MoreWitnesses.

Import ExpenseForm Samples.

Example prepareExpenseForSubmit_receipt :
  prepareExpenseForSubmit (VObject receiptFields) = Normal (VObject receiptPayload).
Proof. vm_compute. reflexivity. Qed.

Lemma payload_properties_witness :
  prepareExpenseForSubmit (VObject receiptFields) = Normal (VObject receiptPayload)
  ∧ (∀ k, k ∈ ["id"; "description"; "type"; "privateMessage"; "invoiceInfo"; "tags"] →
          receiptPayload !! k = receiptFields !! k)
  ∧ (∀ k, k ∈ ["payee"; "payoutMethod"; "attachedFiles"; "items"] →
          is_Some (receiptPayload !! k))
  ∧ (∀ k, k ∉ ["id"; "description"; "type"; "privateMessage"; "invoiceInfo"; "tags";
               "payee"; "payoutMethod"; "attachedFiles"; "items"] →
          receiptPayload !! k = None).
Proof.
  split; [vm_compute; reflexivity|].
  apply (payload_properties receiptFields receiptPayload). vm_compute. reflexivity.
Defined.

Lemma payload_payoutMethod_witness :
  prepareExpenseForSubmit (VObject invoiceFields) = Normal (VObject invoicePayload)
  ∧ ∃ reduced,
      invoicePayload !! "payoutMethod" = Some (VObject reduced)
      ∧ (∀ k, reduced !! k =
                if decide (k ∈ ["id"; "name"; "data"; "isSaved"; "type"])
                then match invoiceFields !! "payoutMethod" with
                     | Some (VObject payoutMethod) => payoutMethod !! k
                     | _ => None
                     end
                else None)
      ∧ (JS.truthy (default VUndefined (invoiceFields !! "payoutMethod")) = false →
         reduced = ∅).
Proof.
  split; [vm_compute; reflexivity|].
  apply (payload_payoutMethod invoiceFields invoicePayload). vm_compute. reflexivity.
Defined.

Lemma payload_attachedFiles_witness :
  prepareExpenseForSubmit (VObject receiptFields) = Normal (VObject receiptPayload)
  ∧ match receiptFields !! "attachedFiles" with
    | Some (VArray files) =>
        ∃ files',
          receiptPayload !! "attachedFiles" = Some (VArray files')
          ∧ Forall2 (λ file file',
              ∃ o, file' = VObject o
                ∧ ∀ k, o !! k = if decide (k ∈ ["id"; "url"])
                                then match file with VObject f => f !! k | _ => None end
                                else None) files files'
    | _ => receiptPayload !! "attachedFiles" = Some VUndefined
    end.
Proof.
  split; [vm_compute; reflexivity|].
  apply (payload_attachedFiles receiptFields receiptPayload). vm_compute. reflexivity.
Defined.

Lemma receipt_items_keep_url_witness :
  prepareExpenseForSubmit (VObject receiptFields) = Normal (VObject receiptPayload)
  ∧ ∃ its items',
      receiptFields !! "items" = Some (VArray its)
      ∧ receiptPayload !! "items" = Some (VArray items')
      ∧ Forall2 (λ item item',
          ∃ o, item' = VObject o
            ∧ o !! "url" =
                if JS.strict_eq_string (default VUndefined (receiptFields !! "type"))
                                       expenseTypes.INVOICE
                then None
                else match item with VObject i => i !! "url" | _ => None end) its items'.
Proof.
  split; [vm_compute; reflexivity|].
  apply (receipt_items_keep_url receiptFields receiptPayload). vm_compute. reflexivity.
Defined.

Lemma item_has_no_other_property_witness :
  prepareExpenseForSubmit (VObject receiptFields) = Normal (VObject receiptPayload)
  ∧ ∃ its items',
      receiptFields !! "items" = Some (VArray its)
      ∧ receiptPayload !! "items" = Some (VArray items')
      ∧ Forall2 (λ _ item',
          ∃ o, item' = VObject o
            ∧ o !! "__isNew" = None
            ∧ ∀ k, k ∉ ["id"; "url"; "description"; "incurredAt"; "amount"] →
                   o !! k = None) its items'.
Proof.
  split; [vm_compute; reflexivity|].
  apply (item_has_no_other_property receiptFields receiptPayload). vm_compute. reflexivity.
Defined.

Lemma payee_without_id_witness :
  submittable (VObject receiptFields) = true
  ∧ JS.get (VObject receiptFields) "payee"
    = Normal (VObject {[ "legacyId" := VNumber (Int 42) ]})
  ∧ JS.truthy (VObject {[ "legacyId" := VNumber (Int 42) ]}) = true
  ∧ Lodash.get (VObject {[ "legacyId" := VNumber (Int 42) ]}) "id" = VUndefined
  ∧ ∃ payload,
      prepareExpenseForSubmit (VObject receiptFields) = Normal (VObject payload)
      ∧ payload !! "payee" = Some (VObject {[ "legacyId" := VUndefined ]}).
Proof.
  split; [reflexivity|]. split; [reflexivity|]. split; [reflexivity|].
  split; [reflexivity|].
  apply (payee_without_id (VObject receiptFields)
           (VObject {[ "legacyId" := VNumber (Int 42) ]})); reflexivity.
Defined.

Lemma validate_without_items_witness :
  JS.nullish (Lodash.get (VObject draftWithoutItems) "items") = true
  ∧ validate coerceNaN acceptItem acceptPayoutMethod (VObject draftWithoutItems)
    = Throw TypeError
  ∧ handleSubmit coerceNaN acceptItem acceptPayoutMethod resolveSubmit
      (VObject draftWithoutItems) emptyForm
    = (Throw TypeError, emptyForm).
Proof.
  split; [reflexivity|].
  apply (validate_without_items coerceNaN acceptItem acceptPayoutMethod resolveSubmit
           (VObject draftWithoutItems) emptyForm). reflexivity.
Defined.

Lemma items_errors_attached_witness :
  let expense := draftWith (VString "Hosting") VNull [newItem; unnamedItem] in
  JS.get expense "items" = Normal (VArray [newItem; unnamedItem])
  ∧ ∃ errors,
      validate coerceNaN requireDescription acceptPayoutMethod expense = Normal errors
      ∧ errors !! "items" =
          if existsb (λ item, negb (Lodash.isEmpty (requireDescription expense item)))
               [newItem; unnamedItem]
          then Some (VArray (map (requireDescription expense) [newItem; unnamedItem]))
          else None.
Proof.
  intros expense. split; [reflexivity|].
  apply (items_errors_attached coerceNaN requireDescription acceptPayoutMethod expense
           [newItem; unnamedItem]). reflexivity.
Defined.

Lemma payoutMethod_errors_override_witness :
  JS.get invoice "items" = Normal (VArray [newItem; savedItem])
  ∧ ∃ errors,
      validate coerceNaN acceptItem requireData invoice = Normal errors
      ∧ errors !! "payoutMethod" =
          (let payoutMethod := Lodash.get invoice "payoutMethod" in
           if JS.truthy payoutMethod && negb (Lodash.isEmpty (requireData payoutMethod))
           then Some (requireData payoutMethod)
           else FormUtils.requireFields invoice
                  ["description"; "payee"; "payoutMethod"; "currency"] !! "payoutMethod")
      ∧ ∀ k, k ≠ "items" → k ≠ "payoutMethod" →
             errors !! k =
               FormUtils.requireFields invoice
                 ["description"; "payee"; "payoutMethod"; "currency"] !! k.
Proof.
  split; [reflexivity|].
  apply (payoutMethod_errors_override coerceNaN acceptItem requireData invoice
           [newItem; savedItem]). reflexivity.
Defined.

Lemma validate_empty_iff_witness :
  JS.get invoice "items" = Normal (VArray [newItem; savedItem])
  ∧ (validate coerceNaN acceptItem acceptPayoutMethod invoice = Normal ∅ ↔
       FormUtils.requireFields invoice ["description"; "payee"; "payoutMethod"; "currency"]
         = ∅
       ∧ Forall (λ item, Lodash.isEmpty (acceptItem invoice item) = true)
           [newItem; savedItem]
       ∧ (JS.truthy (Lodash.get invoice "payoutMethod") = true →
          Lodash.isEmpty (acceptPayoutMethod (Lodash.get invoice "payoutMethod")) = true)).
Proof.
  split; [reflexivity|].
  apply (validate_empty_iff coerceNaN acceptItem acceptPayoutMethod invoice
           [newItem; savedItem]). reflexivity.
Defined.

Lemma only_valid_drafts_submitted_witness :
  let attempts := [untitledInvoice; invoice; VObject draftWithoutItems] in
  Forall (λ values, validate coerceNaN acceptItem acceptPayoutMethod values = Normal ∅)
    (onSubmitCalls emptyForm)
  ∧ Forall (λ values, validate coerceNaN acceptItem acceptPayoutMethod values = Normal ∅)
      (onSubmitCalls
         (afterSubmits coerceNaN acceptItem acceptPayoutMethod resolveSubmit attempts
            emptyForm))
  ∧ length (onSubmitCalls
              (afterSubmits coerceNaN acceptItem acceptPayoutMethod resolveSubmit attempts
                 emptyForm))
    ≤ length (onSubmitCalls emptyForm) + length attempts.
Proof.
  intros attempts. split; [constructor|].
  apply (only_valid_drafts_submitted coerceNaN acceptItem acceptPayoutMethod resolveSubmit
           attempts emptyForm). constructor.
Defined.

Lemma submit_enabled_only_after_step_one_witness :
  let fk := Formik invoice true true in
  submitDisabled coerceNaN fk = Normal false
  ∧ stepOneCompleted coerceNaN (values fk) = Normal (VBool true)
  ∧ (∃ base, hasBaseFormFieldsCompleted (values fk) = Normal base ∧ JS.truthy base = true)
  ∧ JS.truthy (Lodash.get (values fk) "payoutMethod") = true
  ∧ isValid fk = true.
Proof.
  intros fk. split; [reflexivity|].
  apply (submit_enabled_only_after_step_one coerceNaN fk). reflexivity.
Defined.

Lemma gating_reads_items_lazily_witness :
  (let fk := Formik (VObject {[ "description" := VString "Hosting" ]}) false true in
   values fk = VObject {[ "description" := VString "Hosting" ]}
   ∧ JS.truthy (default VUndefined
                  (({[ "description" := VString "Hosting" ]} : gmap string value)
                     !! "type")) = false
   ∧ submitDisabled coerceNaN fk = Normal true)
  ∧ (let fk := Formik (VObject draftWithoutItems) false true in
     values fk = VObject draftWithoutItems
     ∧ JS.truthy (default VUndefined (draftWithoutItems !! "type")) = true
     ∧ JS.truthy (default VUndefined (draftWithoutItems !! "description")) = true
     ∧ JS.nullish (default VUndefined (draftWithoutItems !! "items")) = true
     ∧ submitDisabled coerceNaN fk = Throw TypeError).
Proof.
  split.
  - intros fk. split; [reflexivity|]. split; [reflexivity|].
    apply (proj1 (gating_reads_items_lazily coerceNaN fk
                    {[ "description" := VString "Hosting" ]} eq_refl)).
    left. reflexivity.
  - intros fk. split; [reflexivity|]. split; [reflexivity|]. split; [reflexivity|].
    split; [reflexivity|].
    apply (proj2 (gating_reads_items_lazily coerceNaN fk draftWithoutItems eq_refl));
      reflexivity.
Defined.

Lemma new_form_cannot_submit_witness :
  JS.nullish collectiveWithoutHost = false
  ∧ ∃ initial,
      initialValues collectiveWithoutHost (VArray []) VUndefined = Normal initial
      ∧ JS.get initial "items" = Normal (VArray [])
      ∧ submitDisabled coerceNaN (Formik initial false true) = Normal true.
Proof.
  split; [reflexivity|].
  apply (new_form_cannot_submit coerceNaN collectiveWithoutHost (VArray []) false true).
  reflexivity.
Defined.

Lemma payee_change_resets_payoutMethod_witness :
  let after :=
    <["payoutMethod" := VNull]> (<["payee" := VObject {[ "id" := VString "xyz" ]}]>
                                   invoiceFields) in
  let cleared := <["payoutMethod" := VNull]> (delete "payee" invoiceFields) in
  (onChangePayee chosenPayee invoiceFields = Normal after
   ∧ Lodash.get (VObject after) "payee" = Lodash.get chosenPayee "value"
   ∧ after !! "payee" = Some (VObject {[ "id" := VString "xyz" ]})
   ∧ after !! "payoutMethod" = Some VNull
   ∧ (∀ k, k ≠ "payee" → k ≠ "payoutMethod" → after !! k = invoiceFields !! k)
   ∧ submitDisabled coerceNaN (Formik (VObject after) true true) ≠ Normal false)
  ∧ (onChangePayee (VObject ∅) invoiceFields = Normal cleared
     ∧ Lodash.get (VObject cleared) "payee" = VUndefined
     ∧ cleared !! "payee" = None
     ∧ cleared !! "payoutMethod" = Some VNull
     ∧ (∀ k, k ≠ "payee" → k ≠ "payoutMethod" → cleared !! k = invoiceFields !! k)
     ∧ submitDisabled coerceNaN (Formik (VObject cleared) true true) ≠ Normal false).
Proof.
  intros after cleared. split.
  - split; [reflexivity|].
    apply (payee_change_resets_payoutMethod coerceNaN chosenPayee invoiceFields after
             true true). reflexivity.
  - split; [reflexivity|].
    exact (payee_change_resets_payoutMethod coerceNaN (VObject ∅) invoiceFields cleared
             true true eq_refl).
Defined.


Lemma default_payee_only_when_unset_witness :
  let m : gmap string value := {[ "description" := VString ""; "items" := VArray [] ]} in
  let fk := Formik (VObject m) false true in
  let me := VObject {[ "id" := VString "me" ]} in
  values fk = VObject m
  ∧ JS.truthy (default VUndefined (m !! "payee")) = false
  ∧ defaultPayeeEffect fk (VArray [me]) = Normal (head [me])
  ∧ JS.nullish VUndefined = true
  ∧ defaultPayeeEffect fk VUndefined = Normal None.
Proof.
  intros m fk me. split; [reflexivity|]. split; [reflexivity|].
  split.
  - apply (proj1 (proj2 (default_payee_only_when_unset fk m eq_refl)) [me]). reflexivity.
  - split; [reflexivity|].
    apply (proj2 (proj2 (default_payee_only_when_unset fk m eq_refl)) VUndefined).
    reflexivity.
Defined.

Lemma default_payee_keeps_initial_values_witness :
  let profiles := VArray [VObject {[ "id" := VString "me" ]}] in
  JS.nullish collectiveWithoutHost = false
  ∧ ∃ initial,
      initialValues collectiveWithoutHost profiles VUndefined = Normal initial
      ∧ (defaultPayeeEffect (Formik initial false true) profiles = Normal None
         ∨ defaultPayeeEffect (Formik initial false true) profiles
           = Normal (Some (Lodash.get initial "payee"))).
Proof.
  intros profiles. split; [reflexivity|].
  apply (default_payee_keeps_initial_values collectiveWithoutHost profiles false true).
  reflexivity.
Defined.

Lemma load_and_save_exclusive_witness :
  let formPersister := Some (FormPersister.Make VNull) in
  formPersister = Some (FormPersister.Make VNull)
  ∧ JS.truthy (FormPersister.loadValues (FormPersister.Make VNull)) = false
  ∧ loadEffect formPersister mounted VUndefined = Normal None.
Proof.
  intros formPersister. split; [reflexivity|]. split; [reflexivity|].
  apply (proj2 (proj2 (load_and_save_exclusive formPersister mounted VUndefined))
           (FormPersister.Make VNull)); reflexivity.
Defined.

Lemma other_drafts_restored_as_loaded_witness :
  let persister := FormPersister.Make draftWithoutPayoutMethod in
  dirty mounted = false
  ∧ JS.truthy (FormPersister.loadValues persister) = true
  ∧ JS.strict_eq_string
      (Lodash.get (Lodash.get (FormPersister.loadValues persister) "payoutMethod") "type")
      PayoutMethodType.BANK_ACCOUNT = false
  ∧ loadEffect (Some persister) mounted VUndefined
    = Normal (Some (FormPersister.loadValues persister)).
Proof.
  intros persister. split; [reflexivity|]. split; [reflexivity|]. split; [reflexivity|].
  apply (other_drafts_restored_as_loaded persister mounted VUndefined); reflexivity.
Defined.

Lemma bank_account_draft_needs_host_witness :
  dirty mounted = false
  ∧ FormPersister.loadValues (FormPersister.Make invoice) = VObject invoiceFields
  ∧ JS.strict_eq_string
      (Lodash.get (default VUndefined (invoiceFields !! "payoutMethod")) "type")
      PayoutMethodType.BANK_ACCOUNT = true
  ∧ JS.nullish (Lodash.get collectiveWithoutHost "host") = true
  ∧ loadEffect (Some (FormPersister.Make invoice)) mounted collectiveWithoutHost
    = Throw TypeError.
Proof.
  split; [reflexivity|]. split; [reflexivity|]. split; [reflexivity|].
  split; [reflexivity|].
  apply (bank_account_draft_needs_host (FormPersister.Make invoice) mounted invoiceFields
           collectiveWithoutHost); reflexivity.
Defined.

Lemma load_idempotent_witness :
  let restored := VObject (<["payoutMethod" := VUndefined]> invoiceFields) in
  loadEffect (Some (FormPersister.Make invoice)) mounted collectiveWithoutTransferwise
  = Normal (Some restored)
  ∧ loadEffect (Some (FormPersister.Make restored)) mounted collectiveWithoutTransferwise
    = Normal (Some restored).
Proof.
  intros restored. split; [reflexivity|].
  apply (load_idempotent (FormPersister.Make invoice) mounted
           collectiveWithoutTransferwise restored). reflexivity.
Defined.

Lemma unreadable_input_after_subform_submit_witness :
  (JS.nullish VUndefined = true ∨ JS.nullish member = true)
  ∧ EditMemberModal.handleSubmitForm member collectiveWithoutHost
      (Some (Normal VUndefined)) (λ _, Throw networkError) VUndefined
      EditMemberModal.initial
    = (Throw TypeError,
       EditMemberModal.Modal false [EditMemberModal.SubmitMemberForm false]).
Proof.
  split; [left; reflexivity|].
  apply (unreadable_input_after_subform_submit member collectiveWithoutHost VUndefined
           VUndefined (λ _, Throw networkError) EditMemberModal.initial).
  left. reflexivity.
Defined.

End MoreWitnesses.
